(** * gsi-elevation-api: the grid store and its service wrapper

    A shallow embedding of [internal/elevation/grid.go] and
    [internal/elevation/service.go].

    - [float64] is Rocq's primitive binary64 [float]; comparisons, sums,
      products and quotients are the IEEE-754 ones, NaN included.
    - Go's [int] is a 64-bit two's complement integer, written as [Z] with
      the wrap-around spelled out ([wrap64]); [int16] cells and [int32]
      header fields likewise.
    - [sync.Map] keyed by the formatted coordinate is a [gmap string float].
    - Functions that return [error] return a [result]; a run-time panic
      (index out of range, negative length given to [make]) is the third
      outcome [Panic].
    - The mutex of [Service] brackets single assignments; the embedding is
      the sequential composition of these atomic sections. *)

From Stdlib Require Import ZArith List Bool Lia Ascii String DecimalString.
From Stdlib.Strings Require Import Byte.
From Stdlib Require Import Floats.
From stdpp Require Import base option list strings gmap.

Local Open Scope Z_scope.

(* ===================================================================== *)
(** ** Results and errors *)

Inductive error : Type :=
  | ErrOutOfBounds                      (* errors.New("coordinates out of bounds") *)
  | ErrOpen                             (* os.Open failed, not with ENOENT *)
  | ErrStat                             (* file.Stat failed *)
  | ErrEOF                              (* io.EOF *)
  | ErrUnexpectedEOF                    (* io.ErrUnexpectedEOF *)
  | ErrIO                               (* any other read error *)
  | ErrSizeMismatch (expected got : Z)  (* "data file size mismatch: ..." *)
  | ErrWrap (msg : string) (cause : error).   (* fmt.Errorf("...: %w", err) *)

Inductive result (A : Type) : Type :=
  | Ok (a : A)
  | Err (e : error)
  | Panic.

Arguments Ok {A} a.
Arguments Err {A} e.
Arguments Panic {A}.

Definition bind {A B : Type} (r : result A) (k : A -> result B) : result B :=
  match r with
  | Ok a => k a
  | Err e => Err e
  | Panic => Panic
  end.

Definition is_err {A : Type} (r : result A) : bool :=
  match r with Err _ => true | _ => false end.

(* ===================================================================== *)
(** ** Machine integers *)

Module GoInt.

(** Two's complement wrap-around to [w] bits, signed. *)
Definition wrap (w : Z) (z : Z) : Z :=
  (z + 2 ^ (w - 1)) mod 2 ^ w - 2 ^ (w - 1).

Definition wrap64 : Z -> Z := wrap 64.
Definition wrap16 : Z -> Z := wrap 16.
Definition wrap32 : Z -> Z := wrap 32.

(** Unsigned 64-bit wrap-around ([uint64]). *)
Definition wrapu64 (z : Z) : Z := z mod 2 ^ 64.

Definition in_int32 (z : Z) : Prop := - 2 ^ 31 <= z < 2 ^ 31.

(** [int] arithmetic. *)
Definition add (a b : Z) : Z := wrap64 (a + b).
Definition sub (a b : Z) : Z := wrap64 (a - b).
Definition mul (a b : Z) : Z := wrap64 (a * b).

End GoInt.

(* ===================================================================== *)
(** ** float64 *)

Module F64.

(** The integer part of a finite value, truncated toward zero. *)
Definition trunc_sf (x : spec_float) : option Z :=
  match x with
  | S754_zero _ => Some 0
  | S754_finite s m e =>
      let a := if 0 <=? e then Z.pos m * 2 ^ e else Z.pos m / 2 ^ (- e) in
      Some (if s then - a else a)
  | _ => None
  end.

(** [float64(n)] for an integer [n]: correctly rounded conversion. *)
Definition of_int (n : Z) : float :=
  SF2Prim (binary_normalize prec emax n 0 false).

(** [math.Float64frombits]: the value of a 64-bit IEEE-754 pattern. *)
Definition of_bits (b : Z) : float :=
  let s := Z.testbit b 63 in
  let ex := Z.land (Z.shiftr b 52) 2047 in
  let mant := Z.land b (2 ^ 52 - 1) in
  if (ex =? 2047)%Z then
    (if (mant =? 0)%Z then (if s then neg_infinity else infinity) else nan)
  else if (ex =? 0)%Z then
    match mant with
    | Z.pos m => SF2Prim (S754_finite s m (-1074)%Z)
    | _ => if s then neg_zero else zero
    end
  else
    match (mant + 2 ^ 52)%Z with
    | Z.pos m => SF2Prim (S754_finite s m (ex - 1075)%Z)
    | _ => nan
    end.

End F64.

(** What a conversion from [float64] to an integer type yields when the
    value is not representable in the target type.  The language leaves
    this to the implementation; it is a parameter of the embedding. *)
Record Platform : Type := mkPlatform {
  undef_int : float -> Z;
  undef_int16 : float -> Z
}.

(** [int(f)] *)
Definition int_of_float (P : Platform) (f : float) : Z :=
  match F64.trunc_sf (Prim2SF f) with
  | Some z =>
      if (- 2 ^ 63 <=? z) && (z <? 2 ^ 63) then z
      else GoInt.wrap64 (undef_int P f)
  | None => GoInt.wrap64 (undef_int P f)
  end.

(** [int16(f)] *)
Definition int16_of_float (P : Platform) (f : float) : Z :=
  match F64.trunc_sf (Prim2SF f) with
  | Some z =>
      if (- 2 ^ 15 <=? z) && (z <? 2 ^ 15) then z
      else GoInt.wrap16 (undef_int16 P f)
  | None => GoInt.wrap16 (undef_int16 P f)
  end.

(** A platform whose out-of-range conversions to [int] give the "integer
    indefinite" pattern (the minimum [int64]), as x86-64's [CVTTSD2SQ], and
    whose conversions to [int16] keep the low 16 bits of that result. *)
Definition indefinite_int (f : float) : Z :=
  match F64.trunc_sf (Prim2SF f) with
  | Some z => if (- 2 ^ 63 <=? z) && (z <? 2 ^ 63) then z else - 2 ^ 63
  | None => - 2 ^ 63
  end.

Definition indefinite : Platform :=
  {| undef_int := fun _ => - 2 ^ 63; undef_int16 := indefinite_int |}.

(** A platform whose out-of-range conversions saturate and send NaN to 0. *)
Definition saturating_conv (lo hi : Z) (f : float) : Z :=
  if PrimFloat.is_nan f then 0
  else if PrimFloat.ltb f PrimFloat.zero then lo else hi.

Definition saturating : Platform :=
  {| undef_int := saturating_conv (- 2 ^ 63) (2 ^ 63 - 1);
     undef_int16 := saturating_conv (- 2 ^ 15) (2 ^ 15 - 1) |}.

(* ===================================================================== *)
(** ** fmt.Sprintf("%.4f", f)

    The standard library's rendering of a [float64] with four digits after
    the decimal point: the exact binary value is rounded to the nearest
    multiple of 1/10000, ties to the even one; the sign is printed for every
    negative value, the negative zero included; NaN and the infinities are
    printed by name. *)

Module Fmt.

(** [n / d] rounded to the nearest integer, ties to even ([0 < d]). *)
Definition div_half_even (n d : Z) : Z :=
  let q := n / d in
  let r := n mod d in
  match 2 * r ?= d with
  | Lt => q
  | Gt => q + 1
  | Eq => if Z.even q then q else q + 1
  end.

(** The magnitude [m * 2^e] in units of 1/10000, rounded. *)
Definition scaled4 (m : positive) (e : Z) : Z :=
  if 0 <=? e then Z.pos m * 2 ^ e * 10000
  else div_half_even (Z.pos m * 10000) (2 ^ (- e)).

Definition digits (n : Z) : string :=
  NilZero.string_of_uint (N.to_uint (Z.to_N n)).

Definition pad4 (n : Z) : string :=
  let d := digits n in
  match String.length d with
  | O => "0000"
  | 1%nat => "000" ++ d
  | 2%nat => "00" ++ d
  | 3%nat => "0" ++ d
  | _ => d
  end%string.

Definition fixed4 (neg : bool) (n : Z) : string :=
  ((if neg then "-" else "") ++ digits (n / 10000) ++ "." ++ pad4 (n mod 10000))%string.

Definition f4 (f : float) : string :=
  match Prim2SF f with
  | S754_nan => "NaN"
  | S754_infinity false => "+Inf"
  | S754_infinity true => "-Inf"
  | S754_zero s => fixed4 s 0
  | S754_finite s m e => fixed4 s (scaled4 m e)
  end%string.

End Fmt.

(* ===================================================================== *)
(** ** grid.go: the data *)

#[local] Set Warnings "-inexact-float".

Record GridHeader : Type := mkGridHeader {
  Width : Z;          (* int32 *)
  Height : Z;         (* int32 *)
  MinLat : float;
  MaxLat : float;
  MinLon : float;
  MaxLon : float;
  GridSize : float
}.

Record ElevationGrid : Type := mkElevationGrid {
  grid : list Z;                      (* []int16 *)
  width : Z;                          (* int *)
  height : Z;                         (* int *)
  minLat : float;
  maxLat : float;
  minLon : float;
  maxLon : float;
  gridSize : float;
  invGridSize : float;
  hotspotCache : gmap string float    (* sync.Map *)
}.

Definition set_cache (eg : ElevationGrid) (c : gmap string float) : ElevationGrid :=
  {| grid := grid eg; width := width eg; height := height eg;
     minLat := minLat eg; maxLat := maxLat eg;
     minLon := minLon eg; maxLon := maxLon eg;
     gridSize := gridSize eg; invGridSize := invGridSize eg;
     hotspotCache := c |}.

Definition set_grid (eg : ElevationGrid) (g : list Z) : ElevationGrid :=
  {| grid := g; width := width eg; height := height eg;
     minLat := minLat eg; maxLat := maxLat eg;
     minLon := minLon eg; maxLon := maxLon eg;
     gridSize := gridSize eg; invGridSize := invGridSize eg;
     hotspotCache := hotspotCache eg |}.

Definition set_invGridSize (eg : ElevationGrid) (v : float) : ElevationGrid :=
  {| grid := grid eg; width := width eg; height := height eg;
     minLat := minLat eg; maxLat := maxLat eg;
     minLon := minLon eg; maxLon := maxLon eg;
     gridSize := gridSize eg; invGridSize := v;
     hotspotCache := hotspotCache eg |}.

Definition set_geometry (eg : ElevationGrid) (h : GridHeader) : ElevationGrid :=
  {| grid := grid eg; width := Width h; height := Height h;
     minLat := MinLat h; maxLat := MaxLat h;
     minLon := MinLon h; maxLon := MaxLon h;
     gridSize := GridSize h; invGridSize := invGridSize eg;
     hotspotCache := hotspotCache eg |}.

(** The geometry written by [NewElevationGrid] and by [loadHeader] when the
    header file does not exist. *)
Definition defaultHeader : GridHeader :=
  {| Width := 32000; Height := 26000;
     MinLat := 20.0; MaxLat := 46.0;
     MinLon := 122.0; MaxLon := 154.0;
     GridSize := 0.001 |}.

Definition NewElevationGrid : ElevationGrid :=
  {| grid := [];
     width := 32000;
     height := 26000;
     minLat := 20.0;
     maxLat := 46.0;
     minLon := 122.0;
     maxLon := 154.0;
     gridSize := 0.001;
     invGridSize := 0;
     hotspotCache := ∅ |}.

(** [s[i]] on a slice: panics unless [0 <= i < len(s)]. *)
Definition index {A : Type} (s : list A) (i : Z) : result A :=
  if (i <? 0) || (Z.of_nat (length s) <=? i) then Panic
  else match s !! Z.to_nat i with
       | Some a => Ok a
       | None => Panic
       end.

(* ===================================================================== *)
(** ** Files and encoding/binary *)

(** An opened file: the size [Stat] reports ([None] when [Stat] fails), the
    bytes a reader obtains from it, and whether the reader ends with a read
    error instead of the end of the file.  The reported size and the bytes
    read are separate observations of the file system. *)
Record File : Type := mkFile {
  fileSize : option Z;
  fileData : list byte;
  fileBroken : bool
}.

(** The outcome of [os.Open]. *)
Inductive openResult : Type :=
  | NotExist                 (* os.IsNotExist(err) *)
  | OpenError                (* any other error *)
  | Opened (f : File).

Definition FileSystem : Type := string -> openResult.

Module Binary.

(** [io.ReadFull] on a fresh reader of [f] into a buffer of [n] bytes. *)
Definition ReadFull (f : File) (n : nat) : result (list byte) :=
  if (n <=? length (fileData f))%nat then Ok (firstn n (fileData f))
  else if fileBroken f then Err ErrIO
  else match fileData f with
       | [] => Err ErrEOF
       | _ => Err ErrUnexpectedEOF
       end.

(** Little-endian unsigned value of a byte string. *)
Fixpoint le (bs : list byte) : Z :=
  match bs with
  | [] => 0
  | b :: rest => Z.of_N (Byte.to_N b) + 256 * le rest
  end.

Definition field (bs : list byte) (off len : nat) : Z :=
  le (firstn len (skipn off bs)).

(** Decoding of the 48 bytes of a [GridHeader], field after field. *)
Definition decodeHeader (bs : list byte) : GridHeader :=
  {| Width := GoInt.wrap32 (field bs 0 4);
     Height := GoInt.wrap32 (field bs 4 4);
     MinLat := F64.of_bits (field bs 8 8);
     MaxLat := F64.of_bits (field bs 16 8);
     MinLon := F64.of_bits (field bs 24 8);
     MaxLon := F64.of_bits (field bs 32 8);
     GridSize := F64.of_bits (field bs 40 8) |}.

(** [binary.Read(file, binary.LittleEndian, &header)] *)
Definition ReadHeader (f : File) : result GridHeader :=
  bind (ReadFull f 48) (fun bs => Ok (decodeHeader bs)).

Fixpoint decodeInt16s (bs : list byte) : list Z :=
  match bs with
  | lo :: hi :: rest => GoInt.wrap16 (le [lo; hi]) :: decodeInt16s rest
  | _ => []
  end.

(** [binary.Read(file, binary.LittleEndian, s)] for [s] a [[]int16] of
    [n] elements. *)
Definition ReadInt16s (f : File) (n : nat) : result (list Z) :=
  bind (ReadFull f (2 * n)) (fun bs => Ok (decodeInt16s bs)).

End Binary.

(** [make([]int16, n)]: panics on a negative length.  (Exhaustion of memory
    is outside the model.) *)
Definition make_int16 (n : Z) : result (list Z) :=
  if n <? 0 then Panic else Ok (repeat 0 (Z.to_nat n)).

Definition wrapErr {A : Type} (msg : string) (r : result A) : result A :=
  match r with
  | Err e => Err (ErrWrap msg e)
  | _ => r
  end.

(* ===================================================================== *)
(** ** grid.go: the methods *)

(** [struct{ Lat, Lon float64 }] *)
Record Point : Type := mkPoint { Lat : float; Lon : float }.

Module Grid.

Section Lookup.

Variable P : Platform.

(** The test that opens [GetElevation]. *)
Definition outOfBounds (eg : ElevationGrid) (lat lon : float) : bool :=
  (lat <? minLat eg)%float || (maxLat eg <? lat)%float
  || (lon <? minLon eg)%float || (maxLon eg <? lon)%float.

Definition cacheKey (lat lon : float) : string :=
  (Fmt.f4 lat ++ "," ++ Fmt.f4 lon)%string.

(** The four clamping statements, for a column against [width] or a row
    against [height]. *)
Definition clamp (v n : Z) : Z :=
  let v := if v <? 0 then 0 else v in
  if n <=? v then GoInt.sub n 1 else v.

Definition column (eg : ElevationGrid) (lon : float) : Z :=
  clamp (int_of_float P ((lon - minLon eg) * invGridSize eg)%float) (width eg).

Definition row (eg : ElevationGrid) (lat : float) : Z :=
  clamp (int_of_float P ((lat - minLat eg) * invGridSize eg)%float) (height eg).

Definition cellIndex (eg : ElevationGrid) (lat lon : float) : Z :=
  GoInt.add (GoInt.mul (row eg lat) (width eg)) (column eg lon).

Definition noData : Z := -9999.

(** [(eg *ElevationGrid) GetElevation(lat, lon)]: the outcome and the grid
    store after the call (only its cache may differ). *)
Definition GetElevation (eg : ElevationGrid) (lat lon : float)
  : result float * ElevationGrid :=
  if outOfBounds eg lat lon then (Err ErrOutOfBounds, eg)
  else
    let key := cacheKey lat lon in
    match hotspotCache eg !! key with
    | Some cached => (Ok cached, eg)
    | None =>
        match index (grid eg) (cellIndex eg lat lon) with
        | Ok elevationCm =>
            if elevationCm =? noData then (Ok (-9999)%float, eg)
            else
              let elevation := (F64.of_int elevationCm / 100.0)%float in
              (Ok elevation, set_cache eg (<[key := elevation]> (hotspotCache eg)))
        | Err e => (Err e, eg)
        | Panic => (Panic, eg)
        end
    end.

(** [(eg *ElevationGrid) GetBatchElevations(points)]: the loop, point by
    point.  An error of [GetElevation] becomes the entry -9999; a panic
    inside it unwinds the whole call. *)
Fixpoint GetBatchElevations (eg : ElevationGrid) (points : list Point)
  : result (list float) * ElevationGrid :=
  match points with
  | [] => (Ok [], eg)
  | p :: rest =>
      let '(r, eg1) := GetElevation eg (Lat p) (Lon p) in
      let continue (v : float) :=
        let '(rs, eg2) := GetBatchElevations eg1 rest in
        (bind rs (fun l => Ok (v :: l)), eg2) in
      match r with
      | Ok elev => continue elev
      | Err _ => continue (-9999)%float
      | Panic => (Panic, eg1)
      end
  end.

End Lookup.

Section Load.

Variable P : Platform.
Variable fs : FileSystem.

Definition loadHeader (path : string) (eg : ElevationGrid) : result ElevationGrid :=
  match fs path with
  | NotExist =>
      Ok {| grid := grid eg;
            width := 32000;
            height := 26000;
            minLat := 20.0;
            maxLat := 46.0;
            minLon := 122.0;
            maxLon := 154.0;
            gridSize := 0.001;
            invGridSize := invGridSize eg;
            hotspotCache := hotspotCache eg |}
  | OpenError => Err ErrOpen
  | Opened file =>
      bind (Binary.ReadHeader file) (fun header => Ok (set_geometry eg header))
  end.

(** The value [generateTestData] stores in cell [i].  Each product and
    each sum is rounded on its own (the language also allows an
    implementation to fuse them; that variant is not modelled). *)
Definition testCell (eg : ElevationGrid) (i : Z) : Z :=
  let y := Z.quot i (width eg) in
  let x := Z.rem i (width eg) in
  let lat := (minLat eg + F64.of_int y * gridSize eg)%float in
  let lon := (minLon eg + F64.of_int x * gridSize eg)%float in
  if (35.36 <=? lat)%float && (lat <=? 35.37)%float
     && (138.72 <=? lon)%float && (lon <=? 138.73)%float then 32767
  else if (35.68 <=? lat)%float && (lat <=? 35.69)%float
     && (139.76 <=? lon)%float && (lon <=? 139.77)%float then 300
  else if (34.68 <=? lat)%float && (lat <=? 34.69)%float
     && (135.52 <=? lon)%float && (lon <=? 135.53)%float then 2000
  else
    int16_of_float P (500 + (F64.of_int x * 0.01 + F64.of_int y * 0.02))%float.

Definition generateTestData (eg : ElevationGrid) : result ElevationGrid :=
  bind (make_int16 (GoInt.mul (width eg) (height eg))) (fun g =>
    Ok (set_grid eg
          (map (fun i => testCell eg (Z.of_nat i)) (seq 0 (length g))))).

Definition expectedSize (eg : ElevationGrid) : Z :=
  GoInt.mul (GoInt.mul (width eg) (height eg)) 2.

Definition loadData (path : string) (eg : ElevationGrid) : result ElevationGrid :=
  match fs path with
  | NotExist => generateTestData eg
  | OpenError => Err ErrOpen
  | Opened file =>
      match fileSize file with
      | None => Err ErrStat
      | Some size =>
          if negb (size =? expectedSize eg) then
            Err (ErrSizeMismatch (expectedSize eg) size)
          else
            bind (make_int16 (GoInt.mul (width eg) (height eg))) (fun g =>
              match Binary.ReadInt16s file (length g) with
              | Ok cells => Ok (set_grid eg cells)
              | Err ErrEOF | Err ErrUnexpectedEOF => generateTestData (set_grid eg g)
              | Err e => Err e
              | Panic => Panic
              end)
      end
  end.

Definition LoadFromFile (dataPath headerPath : string) (eg : ElevationGrid)
  : result ElevationGrid :=
  bind (wrapErr "failed to load header" (loadHeader headerPath eg)) (fun eg1 =>
  bind (wrapErr "failed to load data" (loadData dataPath eg1)) (fun eg2 =>
  Ok (set_invGridSize eg2 (1.0 / gridSize eg2)%float))).

End Load.

End Grid.

(* ===================================================================== *)
(** ** service.go *)

Record Service : Type := mkService {
  sgrid : ElevationGrid;      (* grid *)
  startTime : Z;              (* time.Time, in nanoseconds *)
  requests : Z                (* uint64 *)
}.

Record BatchPoint : Type := mkBatchPoint { bpLat : float; bpLon : float }.

Record ElevationResult : Type := mkElevationResult {
  erLat : float;
  erLon : float;
  erElevation : float
}.

Record HealthStatus : Type := mkHealthStatus {
  Status : string;
  MemoryMB : Z;
  Goroutines : Z;
  UptimeSeconds : float;
  TotalRequests : Z
}.

(** What the Go runtime reports when [GetHealth] asks. *)
Record Runtime : Type := mkRuntime {
  memAlloc : Z;          (* runtime.MemStats.Alloc *)
  numGoroutine : Z;      (* runtime.NumGoroutine() *)
  clock : Z              (* time.Now(), in nanoseconds *)
}.

Definition NewService (P : Platform) (fs : FileSystem) (now : Z) (dataPath headerPath : string)
  : result Service :=
  bind (wrapErr "failed to load elevation data"
          (Grid.LoadFromFile P fs dataPath headerPath NewElevationGrid))
       (fun g => Ok {| sgrid := g; startTime := now; requests := 0 |}).

Module Service.

Section Methods.

Variable P : Platform.

Definition withGrid (s : Service) (g : ElevationGrid) : Service :=
  {| sgrid := g; startTime := startTime s; requests := requests s |}.

(** [s.requests += n] under the lock. *)
Definition count (s : Service) (n : Z) : Service :=
  {| sgrid := sgrid s; startTime := startTime s;
     requests := GoInt.wrapu64 (requests s + n) |}.

Definition GetElevation (s : Service) (lat lon : float) : result float * Service :=
  let s1 := count s 1 in
  let '(r, g) := Grid.GetElevation P (sgrid s1) lat lon in
  (r, withGrid s1 g).

(** The last loop of [GetBatchElevations], from index [i] on: each result
    is built from the point and from [elevations[i]]. *)
Fixpoint assemble (points : list BatchPoint) (elevations : list float) (i : Z)
  : result (list ElevationResult) :=
  match points with
  | [] => Ok []
  | p :: rest =>
      bind (index elevations i) (fun e =>
      bind (assemble rest elevations (i + 1)) (fun l =>
      Ok ({| erLat := bpLat p; erLon := bpLon p; erElevation := e |} :: l)))
  end.

Definition GetBatchElevations (s : Service) (points : list BatchPoint)
  : result (list ElevationResult) * Service :=
  let s1 := count s (Z.of_nat (length points)) in
  let convertedPoints :=
    map (fun p => {| Lat := bpLat p; Lon := bpLon p |}) points in
  let '(r, g) := Grid.GetBatchElevations P (sgrid s1) convertedPoints in
  (bind r (fun elevations => assemble points elevations 0), withGrid s1 g).

(** [time.Since]: the elapsed [Duration], saturating at the ends of
    [int64]. *)
Definition since (start now : Z) : Z :=
  Z.max (- 2 ^ 63) (Z.min (2 ^ 63 - 1) (now - start)).

(** [time.Duration.Seconds] *)
Definition seconds (d : Z) : float :=
  (F64.of_int (Z.quot d 1000000000) + F64.of_int (Z.rem d 1000000000) / 1e9)%float.

Definition GetHealth (rt : Runtime) (s : Service) : HealthStatus :=
  {| Status := "ok";
     MemoryMB := memAlloc rt / 1024 / 1024;
     Goroutines := numGoroutine rt;
     UptimeSeconds := seconds (since (startTime s) (clock rt));
     TotalRequests := requests s |}.

End Methods.

End Service.

(* ===================================================================== *)
(** ** Predicates used in the statements *)

(** Membership in the inclusive bounding box
    [[minLat, maxLat] x [minLon, maxLon]]. *)
Definition inBoundingBox (eg : ElevationGrid) (lat lon : float) : bool :=
  (minLat eg <=? lat)%float && (lat <=? maxLat eg)%float
  && (minLon eg <=? lon)%float && (lon <=? maxLon eg)%float.

(** None of the four bounds is NaN. *)
Definition numericBounds (eg : ElevationGrid) : Prop :=
  PrimFloat.is_nan (minLat eg) = false /\ PrimFloat.is_nan (maxLat eg) = false /\
  PrimFloat.is_nan (minLon eg) = false /\ PrimFloat.is_nan (maxLon eg) = false.

(** The slice holds [width * height] cells, with positive dimensions; its
    length is an [int]. *)
Definition wellFormed (eg : ElevationGrid) : Prop :=
  0 < width eg /\ 0 < height eg /\
  Z.of_nat (length (grid eg)) = width eg * height eg /\
  Z.of_nat (length (grid eg)) < 2 ^ 63.

(** The bounds are in order (which also says that none is NaN). *)
Definition orderedBounds (eg : ElevationGrid) : Prop :=
  PrimFloat.leb (minLat eg) (maxLat eg) = true /\
  PrimFloat.leb (minLon eg) (maxLon eg) = true.

(** The geometry of a grid store, as a header. *)
Definition geometry (eg : ElevationGrid) : GridHeader :=
  {| Width := width eg; Height := height eg;
     MinLat := minLat eg; MaxLat := maxLat eg;
     MinLon := minLon eg; MaxLon := maxLon eg;
     GridSize := gridSize eg |}.

(** The geometry invariant of the data model: [width, height > 0],
    [minLat < maxLat], [minLon < maxLon], [gridSize > 0]. *)
Definition validGeometry (h : GridHeader) : bool :=
  (0 <? Width h) && (0 <? Height h)
  && (MinLat h <? MaxLat h)%float && (MinLon h <? MaxLon h)%float
  && (0 <? GridSize h)%float.

Definition geometryInvariant (eg : ElevationGrid) : bool :=
  validGeometry (geometry eg).

(** The cells [generateTestData] writes for the geometry of [eg]. *)
Definition syntheticGrid (P : Platform) (eg : ElevationGrid) : list Z :=
  map (fun i => Grid.testCell P eg (Z.of_nat i))
      (seq 0 (Z.to_nat (width eg * height eg))).

(** The last statement of [LoadFromFile]. *)
Definition withInvGridSize (eg : ElevationGrid) : ElevationGrid :=
  set_invGridSize eg (1.0 / gridSize eg)%float.

(** The entry of a batch for one point: the elevation, or -9999 when the
    lookup returns an error. *)
Definition absorb (r : result float) : float :=
  match r with
  | Ok v => v
  | _ => (-9999)%float
  end.

(** The lookups of a batch made one after the other, each on the grid store
    left by the one before, with errors absorbed. *)
Fixpoint sampleEach (P : Platform) (eg : ElevationGrid) (points : list Point)
  : list float :=
  match points with
  | [] => []
  | p :: rest =>
      absorb (fst (Grid.GetElevation P eg (Lat p) (Lon p)))
      :: sampleEach P (snd (Grid.GetElevation P eg (Lat p) (Lon p))) rest
  end.

Definition toPoint (p : BatchPoint) : Point :=
  {| Lat := bpLat p; Lon := bpLon p |}.

(** One call on the service, as the transport layer makes them. *)
Inductive call : Type :=
  | CallGetElevation (lat lon : float)
  | CallGetBatch (points : list BatchPoint)
  | CallGetHealth (rt : Runtime).

(** The service after a call. *)
Definition perform (P : Platform) (s : Service) (c : call) : Service :=
  match c with
  | CallGetElevation lat lon => snd (Service.GetElevation P s lat lon)
  | CallGetBatch points => snd (Service.GetBatchElevations P s points)
  | CallGetHealth _ => s
  end.

Definition performAll (P : Platform) (s : Service) (calls : list call) : Service :=
  fold_left (perform P) calls s.

(** What a call adds to the request counter. *)
Definition counted (c : call) : Z :=
  match c with
  | CallGetElevation _ _ => 1
  | CallGetBatch points => Z.of_nat (length points)
  | CallGetHealth _ => 0
  end.

Definition totalCounted (calls : list call) : Z :=
  fold_right (fun c acc => counted c + acc) 0 calls.

(* ===================================================================== *)
(** ** Small inputs *)

(** A 2 x 2 grid over [[0, 2] x [0, 2]] with cells of one degree; the cell
    of row 0, column 1 holds no data. *)
Definition smallGrid : ElevationGrid :=
  {| grid := [100; -9999; 250; 32767];
     width := 2; height := 2;
     minLat := 0; maxLat := 2; minLon := 0; maxLon := 2;
     gridSize := 1; invGridSize := 1;
     hotspotCache := ∅ |}.

(** [smallGrid] after a lookup at (0, 0.99996), which reads cell 0 and
    stores 1.0 under the key of the coordinate. *)
Definition warmGrid : ElevationGrid :=
  snd (Grid.GetElevation indefinite smallGrid 0 0.99996).

(** A service over [smallGrid], and a batch whose second point is outside
    the box and whose last point falls in the no-data cell. *)
Definition smallService : Service :=
  {| sgrid := smallGrid; startTime := 0; requests := 0 |}.

Definition smallBatch : list BatchPoint :=
  [mkBatchPoint 0 0; mkBatchPoint 5 5; mkBatchPoint 1 1; mkBatchPoint 0 1.5].

Definition someRuntime : Runtime :=
  {| memAlloc := 3 * 1024 * 1024; numGoroutine := 4; clock := 1500000000 |}.

Definition smallCalls : list call :=
  [CallGetElevation 0 0; CallGetBatch smallBatch; CallGetHealth someRuntime;
   CallGetElevation 1 1].

(** File systems.  The header of [tinyHeader] describes the geometry of
    [smallGrid]; [tinyData] holds its four cells. *)
Definition zero8 : list byte := repeat x00 8.
Definition two8 : list byte := [x00; x00; x00; x00; x00; x00; x00; x40].
Definition one8 : list byte := [x00; x00; x00; x00; x00; x00; xf0; x3f].

Definition tinyHeader : list byte :=
  [x02; x00; x00; x00; x02; x00; x00; x00]
  ++ zero8 ++ two8 ++ zero8 ++ two8 ++ one8.

Definition tinyData : list byte :=
  [x64; x00; xf1; xd8; xfa; x00; xff; x7f].

Definition dataPath0 : string := "data/elevation.bin".
Definition headerPath0 : string := "data/elevation.bin.header".

Definition mkFS (header data : openResult) : FileSystem :=
  fun path =>
    if String.eqb path headerPath0 then header
    else if String.eqb path dataPath0 then data
    else NotExist.

Definition regular (bs : list byte) : openResult :=
  Opened {| fileSize := Some (Z.of_nat (length bs)); fileData := bs; fileBroken := false |}.

(** A header of 48 zero bytes and no data file. *)
Definition fsZeroHeader : FileSystem := mkFS (regular (repeat x00 48)) NotExist.

(** The header and the data of [smallGrid]. *)
Definition fsTiny : FileSystem := mkFS (regular tinyHeader) (regular tinyData).

(** The same header, with a data file one byte short. *)
Definition fsShortData : FileSystem :=
  mkFS (regular tinyHeader) (regular (firstn 7 tinyData)).

(** The same header, with a data file of the right size whose reader ends
    after six bytes. *)
Definition fsTruncatedRead : FileSystem :=
  mkFS (regular tinyHeader)
       (Opened {| fileSize := Some 8; fileData := firstn 6 tinyData; fileBroken := false |}).

(** The same header and no data file. *)
Definition fsNoData : FileSystem := mkFS (regular tinyHeader) NotExist.

(** A header file cut after 20 bytes. *)
Definition fsShortHeader : FileSystem :=
  mkFS (regular (firstn 20 tinyHeader)) (regular tinyData).

(** No header file, and a data file of 8 bytes. *)
Definition fsNoHeader : FileSystem := mkFS NotExist (regular tinyData).

(** [smallGrid] as [LoadFromFile] leaves its geometry, before any cell is
    loaded. *)
Definition tinyGeometry : ElevationGrid :=
  set_geometry NewElevationGrid (Binary.decodeHeader tinyHeader).

(** The service [NewService] builds from [fsZeroHeader]: no cells, zero
    dimensions, equal bounds, and an infinite [invGridSize]. *)
Definition zeroService : Service :=
  {| sgrid := {| grid := []; width := 0; height := 0;
                 minLat := 0; maxLat := 0; minLon := 0; maxLon := 0;
                 gridSize := 0; invGridSize := infinity;
                 hotspotCache := ∅ |};
     startTime := 0; requests := 0 |}.

(* ===================================================================== *)
(** * Properties *)

(** ** Facts about float64 comparisons *)

Section FloatOrder.

Lemma compare_cont_Eq_refl (m : positive) : Pos.compare_cont Eq m m = Eq.
Proof. change (Pos.compare m m = Eq). apply Pos.compare_refl. Qed.

Lemma compare_cont_Eq_antisym (m n : positive) :
  Pos.compare_cont Eq n m = CompOpp (Pos.compare_cont Eq m n).
Proof. change (Pos.compare n m = CompOpp (Pos.compare m n)). apply Pos.compare_antisym. Qed.

Lemma SFcompare_refl (x : spec_float) :
  x <> S754_nan -> SFcompare x x = Some Eq.
Proof.
  destruct x as [s | s | | s m e]; intros Hx; try congruence; simpl.
  - reflexivity.
  - destruct s; reflexivity.
  - rewrite Z.compare_refl, compare_cont_Eq_refl. destruct s; reflexivity.
Qed.

Lemma SFcompare_antisym (x y : spec_float) :
  x <> S754_nan -> y <> S754_nan ->
  SFcompare y x = option_map CompOpp (SFcompare x y).
Proof.
  intros Hx Hy.
  destruct x as [sx | sx | | sx mx ex], y as [sy | sy | | sy my ey];
    try congruence; simpl;
    try (destruct sx; reflexivity); try (destruct sy; reflexivity);
    try (destruct sx, sy; reflexivity).
  rewrite (Z.compare_antisym ex ey), (compare_cont_Eq_antisym mx my).
  destruct sx, sy; simpl; try reflexivity;
    destruct (ex ?= ey); simpl; try reflexivity;
    destruct (Pos.compare_cont Eq mx my); reflexivity.
Qed.

Lemma SFcompare_comparable (x y : spec_float) :
  x <> S754_nan -> y <> S754_nan -> exists c, SFcompare x y = Some c.
Proof.
  intros Hx Hy.
  destruct x as [sx | sx | | sx mx ex], y as [sy | sy | | sy my ey];
    try congruence; simpl; eexists; reflexivity.
Qed.

Lemma is_nan_false (x : float) :
  PrimFloat.is_nan x = false -> Prim2SF x <> S754_nan.
Proof.
  unfold PrimFloat.is_nan. rewrite FloatAxioms.eqb_spec. unfold SFeqb.
  intros H Hn. rewrite Hn in H. simpl in H. discriminate.
Qed.

(** On values that are not NaN, [<] is the negation of the converse [<=]. *)
Lemma ltb_negb_leb (x y : float) :
  PrimFloat.is_nan x = false -> PrimFloat.is_nan y = false ->
  PrimFloat.ltb x y = negb (PrimFloat.leb y x).
Proof.
  intros Hx Hy. apply is_nan_false in Hx. apply is_nan_false in Hy.
  rewrite FloatAxioms.ltb_spec, FloatAxioms.leb_spec. unfold SFltb, SFleb.
  rewrite (SFcompare_antisym (Prim2SF y) (Prim2SF x) Hy Hx).
  destruct (SFcompare_comparable (Prim2SF y) (Prim2SF x) Hy Hx) as [c ->].
  destruct c; reflexivity.
Qed.

Lemma leb_refl (x : float) :
  PrimFloat.is_nan x = false -> PrimFloat.leb x x = true.
Proof.
  intros Hx. apply is_nan_false in Hx.
  rewrite FloatAxioms.leb_spec. unfold SFleb. now rewrite SFcompare_refl.
Qed.

(** A comparison with NaN is false. *)
Lemma ltb_nan_l (x y : float) : PrimFloat.is_nan x = true -> PrimFloat.ltb x y = false.
Proof.
  unfold PrimFloat.is_nan. rewrite FloatAxioms.eqb_spec, FloatAxioms.ltb_spec. unfold SFeqb, SFltb.
  destruct (Prim2SF x) as [s | s | | s m e]; simpl; try reflexivity.
  - discriminate.
  - destruct s; discriminate.
  - rewrite Z.compare_refl, compare_cont_Eq_refl. destruct s; discriminate.
Qed.

Lemma ltb_nan_r (x y : float) : PrimFloat.is_nan y = true -> PrimFloat.ltb x y = false.
Proof.
  unfold PrimFloat.is_nan. rewrite FloatAxioms.eqb_spec, FloatAxioms.ltb_spec. unfold SFeqb, SFltb.
  destruct (Prim2SF y) as [s | s | | s m e]; simpl.
  - discriminate.
  - destruct s; discriminate.
  - intros _. destruct (Prim2SF x); reflexivity.
  - rewrite Z.compare_refl, compare_cont_Eq_refl. destruct s; discriminate.
Qed.

End FloatOrder.

(* ===================================================================== *)
(** ** The bounds check of GetElevation *)

Section BoundsCheck.

Variable P : Platform.

Lemma GetElevation_rejected (eg : ElevationGrid) (lat lon : float) :
  Grid.outOfBounds eg lat lon = true ->
  Grid.GetElevation P eg lat lon = (Err ErrOutOfBounds, eg).
Proof. intros H. unfold Grid.GetElevation. now rewrite H. Qed.

Lemma index_no_error {A : Type} (s : list A) (i : Z) (e : error) :
  index s i <> Err e.
Proof.
  unfold index. destruct ((_ <? 0) || _); [discriminate |].
  destruct (s !! Z.to_nat i); discriminate.
Qed.

Lemma GetElevation_no_error (eg : ElevationGrid) (lat lon : float) :
  Grid.outOfBounds eg lat lon = false ->
  is_err (fst (Grid.GetElevation P eg lat lon)) = false.
Proof.
  intros H. unfold Grid.GetElevation. rewrite H.
  destruct (hotspotCache eg !! Grid.cacheKey lat lon); simpl; [reflexivity |].
  destruct (index (grid eg) (Grid.cellIndex P eg lat lon)) as [c | e | ] eqn:E;
    simpl; [| now apply index_no_error in E | reflexivity].
  destruct (c =? Grid.noData); reflexivity.
Qed.

Lemma GetElevation_accepted (eg : ElevationGrid) (lat lon : float) :
  Grid.outOfBounds eg lat lon = false ->
  fst (Grid.GetElevation P eg lat lon) <> Err ErrOutOfBounds.
Proof.
  intros H Hc. apply GetElevation_no_error in H. rewrite Hc in H. discriminate.
Qed.

Lemma GetElevation_only_error (eg : ElevationGrid) (lat lon : float) (e : error) :
  fst (Grid.GetElevation P eg lat lon) = Err e -> e = ErrOutOfBounds.
Proof.
  destruct (Grid.outOfBounds eg lat lon) eqn:E.
  - rewrite GetElevation_rejected by assumption. simpl. congruence.
  - intros H. apply GetElevation_no_error in E. rewrite H in E. discriminate.
Qed.

Lemma GetElevation_error_iff (eg : ElevationGrid) (lat lon : float) :
  fst (Grid.GetElevation P eg lat lon) = Err ErrOutOfBounds <->
  Grid.outOfBounds eg lat lon = true.
Proof.
  split.
  - intros H. destruct (Grid.outOfBounds eg lat lon) eqn:E; [reflexivity |].
    now apply GetElevation_accepted in E.
  - intros H. now rewrite GetElevation_rejected.
Qed.

(** With numeric operands the comparisons of the check are those of the
    inclusive box. *)
Lemma outOfBounds_inBoundingBox (eg : ElevationGrid) (lat lon : float) :
  numericBounds eg ->
  PrimFloat.is_nan lat = false -> PrimFloat.is_nan lon = false ->
  Grid.outOfBounds eg lat lon = negb (inBoundingBox eg lat lon).
Proof.
  intros (Ha & Hb & Hc & Hd) Hlat Hlon.
  unfold Grid.outOfBounds, inBoundingBox.
  rewrite (ltb_negb_leb lat (minLat eg)), (ltb_negb_leb (maxLat eg) lat),
    (ltb_negb_leb lon (minLon eg)), (ltb_negb_leb (maxLon eg) lon) by assumption.
  destruct (PrimFloat.leb (minLat eg) lat), (PrimFloat.leb lat (maxLat eg)),
    (PrimFloat.leb (minLon eg) lon), (PrimFloat.leb lon (maxLon eg)); reflexivity.
Qed.

(** A NaN latitude takes no part in the check: only the longitude can
    cause the rejection (and likewise for a NaN longitude). *)
Lemma outOfBounds_nan_lat (eg : ElevationGrid) (lat lon : float) :
  PrimFloat.is_nan lat = true ->
  Grid.outOfBounds eg lat lon
  = PrimFloat.ltb lon (minLon eg) || PrimFloat.ltb (maxLon eg) lon.
Proof.
  intros H. unfold Grid.outOfBounds.
  now rewrite (ltb_nan_l lat _ H), (ltb_nan_r _ lat H).
Qed.

Lemma outOfBounds_nan_lon (eg : ElevationGrid) (lat lon : float) :
  PrimFloat.is_nan lon = true ->
  Grid.outOfBounds eg lat lon
  = PrimFloat.ltb lat (minLat eg) || PrimFloat.ltb (maxLat eg) lat.
Proof.
  intros H. unfold Grid.outOfBounds.
  rewrite (ltb_nan_l lon _ H), (ltb_nan_r _ lon H).
  now rewrite !orb_false_r.
Qed.

End BoundsCheck.

(** C1 (as amended): when neither the coordinate nor a bound is NaN,
    [GetElevation] fails with the out-of-bounds error exactly when the
    coordinate is outside the inclusive box
    [[minLat, maxLat] x [minLon, maxLon]], and that error is the only one
    it returns.  With the bounds in order, replacing the latitude of an
    accepted coordinate by [minLat] or [maxLat], or its longitude by
    [minLon] or [maxLon], gives a coordinate that is accepted as well: the
    edges and the four corners of the box are inside. *)
Theorem GetElevation_out_of_bounds_iff_outside
    (P : Platform) (eg : ElevationGrid) (lat lon : float) :
  numericBounds eg ->
  PrimFloat.is_nan lat = false ->
  PrimFloat.is_nan lon = false ->
  (fst (Grid.GetElevation P eg lat lon) = Err ErrOutOfBounds
     <-> inBoundingBox eg lat lon = false)
  /\ (forall e, fst (Grid.GetElevation P eg lat lon) = Err e -> e = ErrOutOfBounds)
  /\ (orderedBounds eg -> inBoundingBox eg lat lon = true ->
      forall a b,
        a = lat \/ a = minLat eg \/ a = maxLat eg ->
        b = lon \/ b = minLon eg \/ b = maxLon eg ->
        is_err (fst (Grid.GetElevation P eg a b)) = false).
Proof.
  intros Hb Hlat Hlon. split; [| split].
  - rewrite GetElevation_error_iff, outOfBounds_inBoundingBox by assumption.
    destruct (inBoundingBox eg lat lon); simpl; split; congruence.
  - apply GetElevation_only_error.
  - intros (Ho1 & Ho2) Hin a b Ha Hb'.
    destruct Hb as (Hn1 & Hn2 & Hn3 & Hn4).
    unfold inBoundingBox in Hin.
    apply andb_prop in Hin as (Hin & H4).
    apply andb_prop in Hin as (Hin & H3).
    apply andb_prop in Hin as (H1 & H2).
    apply GetElevation_no_error.
    assert (Ea : PrimFloat.is_nan a = false /\
                 PrimFloat.leb (minLat eg) a = true /\ PrimFloat.leb a (maxLat eg) = true).
    { destruct Ha as [-> | [-> | ->]]; repeat split;
        auto using leb_refl. }
    assert (Eb : PrimFloat.is_nan b = false /\
                 PrimFloat.leb (minLon eg) b = true /\ PrimFloat.leb b (maxLon eg) = true).
    { destruct Hb' as [-> | [-> | ->]]; repeat split;
        auto using leb_refl. }
    destruct Ea as (Na & A1 & A2), Eb as (Nb & B1 & B2).
    rewrite outOfBounds_inBoundingBox by (repeat split; assumption).
    unfold inBoundingBox. now rewrite A1, A2, B1, B2.
Qed.

Lemma smallGrid_numericBounds : numericBounds smallGrid.
Proof. repeat split; reflexivity. Qed.

Lemma smallGrid_orderedBounds : orderedBounds smallGrid.
Proof. split; reflexivity. Qed.

(** On [smallGrid]: (3, 1) lies outside the box and is rejected; (1, 1) is
    inside, and so is the corner (2, 0) obtained from it. *)
Lemma GetElevation_out_of_bounds_iff_outside_witness :
  fst (Grid.GetElevation indefinite smallGrid 3 1) = Err ErrOutOfBounds
  /\ is_err (fst (Grid.GetElevation indefinite smallGrid 2 0)) = false.
Proof.
  split.
  - apply (GetElevation_out_of_bounds_iff_outside indefinite smallGrid 3 1
             smallGrid_numericBounds eq_refl eq_refl).
    vm_compute. reflexivity.
  - apply (GetElevation_out_of_bounds_iff_outside indefinite smallGrid 1 1
             smallGrid_numericBounds eq_refl eq_refl).
    + exact smallGrid_orderedBounds.
    + vm_compute. reflexivity.
    + right; right; reflexivity.
    + right; left; reflexivity.
Defined.

(** C1 (as stated) fails at a NaN latitude: NaN is in no interval, yet both
    comparisons of the check are false for it and the lookup goes on to
    read a cell (row 0 after clamping, on either platform). *)
Lemma GetElevation_accepts_nan :
  inBoundingBox smallGrid nan 0 = false
  /\ fst (Grid.GetElevation indefinite smallGrid nan 0) = Ok 1%float
  /\ fst (Grid.GetElevation saturating smallGrid nan 0) = Ok 1%float.
Proof. repeat split; vm_compute; reflexivity. Qed.

(* ===================================================================== *)
(** ** The cell index *)

Section CellIndex.

Variable P : Platform.

Lemma wrap64_small (z : Z) : - 2 ^ 63 <= z < 2 ^ 63 -> GoInt.wrap64 z = z.
Proof.
  intros Hz. unfold GoInt.wrap64, GoInt.wrap.
  change (2 ^ (64 - 1)) with (2 ^ 63). change (2 ^ 64) with (2 * 2 ^ 63).
  rewrite Z.mod_small; lia.
Qed.

Lemma clamp_range (v n : Z) :
  0 < n < 2 ^ 63 -> 0 <= Grid.clamp v n < n.
Proof.
  intros Hn. unfold Grid.clamp, GoInt.sub.
  destruct (v <? 0) eqn:Ev.
  - destruct (n <=? 0) eqn:En; [rewrite wrap64_small |]; lia.
  - destruct (n <=? v) eqn:En; [rewrite wrap64_small |]; lia.
Qed.

Lemma wellFormed_dims (eg : ElevationGrid) :
  wellFormed eg -> 0 < width eg < 2 ^ 63 /\ 0 < height eg < 2 ^ 63.
Proof. intros (Hw & Hh & Hl & Hb). nia. Qed.

Lemma cellIndex_exact (eg : ElevationGrid) (lat lon : float) :
  wellFormed eg ->
  Grid.cellIndex P eg lat lon = Grid.row P eg lat * width eg + Grid.column P eg lon
  /\ 0 <= Grid.cellIndex P eg lat lon < Z.of_nat (length (grid eg)).
Proof.
  intros Hwf. destruct (wellFormed_dims eg Hwf) as (Hw & Hh).
  destruct Hwf as (_ & _ & Hl & Hb).
  pose proof (clamp_range (int_of_float P ((lon - minLon eg) * invGridSize eg)%float)
                (width eg) Hw) as Hx.
  pose proof (clamp_range (int_of_float P ((lat - minLat eg) * invGridSize eg)%float)
                (height eg) Hh) as Hy.
  fold (Grid.column P eg lon) in Hx. fold (Grid.row P eg lat) in Hy.
  unfold Grid.cellIndex, GoInt.add, GoInt.mul.
  assert (Hm : 0 <= Grid.row P eg lat * width eg
               /\ Grid.row P eg lat * width eg + Grid.column P eg lon
                  < width eg * height eg) by nia.
  rewrite (wrap64_small (Grid.row P eg lat * width eg)) by lia.
  rewrite wrap64_small by lia. lia.
Qed.

Lemma index_in_range {A : Type} (s : list A) (i : Z) :
  0 <= i < Z.of_nat (length s) -> exists a, index s i = Ok a.
Proof.
  intros Hi. unfold index.
  destruct (i <? 0) eqn:E1; [lia |].
  destruct (Z.of_nat (length s) <=? i) eqn:E2; [lia |]. simpl.
  destruct (s !! Z.to_nat i) as [a |] eqn:E3; [now exists a |].
  apply lookup_ge_None in E3. lia.
Qed.

Lemma GetElevation_no_panic (eg : ElevationGrid) (lat lon : float) :
  wellFormed eg -> fst (Grid.GetElevation P eg lat lon) <> Panic.
Proof.
  intros Hwf. destruct (cellIndex_exact eg lat lon Hwf) as (_ & Hr).
  destruct (index_in_range (grid eg) _ Hr) as (c & Hc).
  unfold Grid.GetElevation.
  destruct (Grid.outOfBounds eg lat lon); [discriminate |].
  destruct (hotspotCache eg !! Grid.cacheKey lat lon); [discriminate |].
  rewrite Hc. destruct (c =? Grid.noData); discriminate.
Qed.

End CellIndex.

(** C10: on a grid store whose slice has [width * height] cells with
    positive [width] and [height], for any coordinate whatever (NaN
    included) the clamped column and row lie in [0, width) and
    [0, height), the index is [row * width + column] without wrap-around
    and lies within the slice, the read yields a cell, and [GetElevation]
    does not panic. *)
Theorem cellIndex_within_grid
    (P : Platform) (eg : ElevationGrid) (lat lon : float) :
  wellFormed eg ->
  0 <= Grid.column P eg lon < width eg
  /\ 0 <= Grid.row P eg lat < height eg
  /\ Grid.cellIndex P eg lat lon = Grid.row P eg lat * width eg + Grid.column P eg lon
  /\ 0 <= Grid.cellIndex P eg lat lon < Z.of_nat (length (grid eg))
  /\ (exists c, index (grid eg) (Grid.cellIndex P eg lat lon) = Ok c)
  /\ fst (Grid.GetElevation P eg lat lon) <> Panic.
Proof.
  intros Hwf.
  destruct (wellFormed_dims eg Hwf) as (Hw & Hh).
  destruct (cellIndex_exact P eg lat lon Hwf) as (He & Hr).
  destruct (index_in_range (grid eg) _ Hr) as (c & Hc).
  repeat split; try (apply clamp_range; assumption); try lia.
  - exists c. exact Hc.
  - now apply GetElevation_no_panic.
Qed.

Lemma smallGrid_wellFormed : wellFormed smallGrid.
Proof. unfold wellFormed; simpl; lia. Qed.

(** On [smallGrid] a coordinate of two NaNs passes the bounds check; the
    theorem bounds the cell it reads. *)
Lemma cellIndex_within_grid_witness :
  Grid.outOfBounds smallGrid nan nan = false
  /\ 0 <= Grid.cellIndex indefinite smallGrid nan nan < 4
  /\ 0 <= Grid.cellIndex saturating smallGrid nan nan < 4.
Proof.
  split; [reflexivity |]. split.
  - apply (cellIndex_within_grid indefinite smallGrid nan nan smallGrid_wellFormed).
  - apply (cellIndex_within_grid saturating smallGrid nan nan smallGrid_wellFormed).
Defined.

(* ===================================================================== *)
(** ** The three paths of an accepted lookup *)

Section Paths.

Variable P : Platform.

Lemma GetElevation_hit (eg : ElevationGrid) (lat lon v : float) :
  Grid.outOfBounds eg lat lon = false ->
  hotspotCache eg !! Grid.cacheKey lat lon = Some v ->
  Grid.GetElevation P eg lat lon = (Ok v, eg).
Proof. intros Hb Hc. unfold Grid.GetElevation. now rewrite Hb, Hc. Qed.

Lemma GetElevation_miss_noData (eg : ElevationGrid) (lat lon : float) :
  Grid.outOfBounds eg lat lon = false ->
  hotspotCache eg !! Grid.cacheKey lat lon = None ->
  index (grid eg) (Grid.cellIndex P eg lat lon) = Ok Grid.noData ->
  Grid.GetElevation P eg lat lon = (Ok (-9999)%float, eg).
Proof. intros Hb Hc Hi. unfold Grid.GetElevation. now rewrite Hb, Hc, Hi. Qed.

Lemma GetElevation_miss_value (eg : ElevationGrid) (lat lon : float) (c : Z) :
  Grid.outOfBounds eg lat lon = false ->
  hotspotCache eg !! Grid.cacheKey lat lon = None ->
  index (grid eg) (Grid.cellIndex P eg lat lon) = Ok c ->
  c <> Grid.noData ->
  Grid.GetElevation P eg lat lon =
    (Ok (F64.of_int c / 100.0)%float,
     set_cache eg (<[Grid.cacheKey lat lon := (F64.of_int c / 100.0)%float]>
                     (hotspotCache eg))).
Proof.
  intros Hb Hc Hi Hn. unfold Grid.GetElevation. rewrite Hb, Hc, Hi.
  apply Z.eqb_neq in Hn. now rewrite Hn.
Qed.

Lemma GetElevation_miss_panic (eg : ElevationGrid) (lat lon : float) :
  Grid.outOfBounds eg lat lon = false ->
  hotspotCache eg !! Grid.cacheKey lat lon = None ->
  index (grid eg) (Grid.cellIndex P eg lat lon) = Panic ->
  Grid.GetElevation P eg lat lon = (Panic, eg).
Proof. intros Hb Hc Hi. unfold Grid.GetElevation. now rewrite Hb, Hc, Hi. Qed.

(** A lookup changes nothing but the cache. *)
Lemma GetElevation_frame (eg : ElevationGrid) (lat lon : float) :
  exists c, snd (Grid.GetElevation P eg lat lon) = set_cache eg c.
Proof.
  unfold Grid.GetElevation.
  assert (Hid : eg = set_cache eg (hotspotCache eg)) by now destruct eg.
  destruct (Grid.outOfBounds eg lat lon); [now exists (hotspotCache eg) |].
  destruct (hotspotCache eg !! Grid.cacheKey lat lon); [now exists (hotspotCache eg) |].
  destruct (index (grid eg) (Grid.cellIndex P eg lat lon)) as [c | e | ];
    try now exists (hotspotCache eg).
  destruct (c =? Grid.noData); [now exists (hotspotCache eg) |].
  eexists. reflexivity.
Qed.

(** A comparison that holds has numeric operands. *)
Lemma leb_true_numeric (x y : float) :
  PrimFloat.leb x y = true ->
  PrimFloat.is_nan x = false /\ PrimFloat.is_nan y = false.
Proof.
  rewrite FloatAxioms.leb_spec. unfold SFleb, PrimFloat.is_nan.
  rewrite !FloatAxioms.eqb_spec. unfold SFeqb. intros H.
  assert (Hx : Prim2SF x <> S754_nan) by (intros E; rewrite E in H; discriminate).
  assert (Hy : Prim2SF y <> S754_nan).
  { intros E; rewrite E in H. destruct (Prim2SF x); discriminate. }
  now rewrite !SFcompare_refl.
Qed.

(** Every coordinate of the inclusive box passes the bounds check. *)
Lemma inBoundingBox_accepted (eg : ElevationGrid) (lat lon : float) :
  inBoundingBox eg lat lon = true -> Grid.outOfBounds eg lat lon = false.
Proof.
  intros H. pose proof H as H'. unfold inBoundingBox in H'.
  apply andb_prop in H' as (H' & H4).
  apply andb_prop in H' as (H' & H3).
  apply andb_prop in H' as (H1 & H2).
  destruct (leb_true_numeric _ _ H1) as (N1 & Nlat).
  destruct (leb_true_numeric _ _ H2) as (_ & N2).
  destruct (leb_true_numeric _ _ H3) as (N3 & Nlon).
  destruct (leb_true_numeric _ _ H4) as (_ & N4).
  rewrite outOfBounds_inBoundingBox by (repeat split; assumption).
  now rewrite H.
Qed.

End Paths.

(** The same path is taken twice when the first call leaves the grid store
    as it was: rewrite the first call with [E], then the second. *)
Ltac same_path E := rewrite E; simpl; rewrite E; reflexivity.

(** C6: a second lookup at the same coordinate, made right after the first,
    returns the same outcome as the first, on the grid store and through
    the service alike; the equality is that of the [float64] values
    themselves. *)
Theorem GetElevation_idempotent
    (P : Platform) (s : Service) (lat lon : float) :
  fst (Grid.GetElevation P (snd (Grid.GetElevation P (sgrid s) lat lon)) lat lon)
    = fst (Grid.GetElevation P (sgrid s) lat lon)
  /\ fst (Service.GetElevation P (snd (Service.GetElevation P s lat lon)) lat lon)
    = fst (Service.GetElevation P s lat lon).
Proof.
  assert (H : forall eg,
    fst (Grid.GetElevation P (snd (Grid.GetElevation P eg lat lon)) lat lon)
      = fst (Grid.GetElevation P eg lat lon)).
  { intros eg.
    destruct (Grid.outOfBounds eg lat lon) eqn:Hb.
    { same_path (GetElevation_rejected P eg lat lon Hb). }
    destruct (hotspotCache eg !! Grid.cacheKey lat lon) as [v |] eqn:Hc.
    { same_path (GetElevation_hit P eg lat lon v Hb Hc). }
    destruct (index (grid eg) (Grid.cellIndex P eg lat lon)) as [c | e | ] eqn:Hi.
    - destruct (Z.eq_dec c Grid.noData) as [-> | Hn].
      + same_path (GetElevation_miss_noData P eg lat lon Hb Hc Hi).
      + rewrite (GetElevation_miss_value P eg lat lon c) by assumption. simpl.
        rewrite (GetElevation_hit P (set_cache eg _) lat lon _ Hb (lookup_insert_eq _ _ _)).
        reflexivity.
    - now apply index_no_error in Hi.
    - same_path (GetElevation_miss_panic P eg lat lon Hb Hc Hi). }
  split; [apply H |].
  unfold Service.GetElevation. simpl.
  destruct (Grid.GetElevation P (sgrid s) lat lon) as [r g] eqn:E1. simpl.
  destruct (Grid.GetElevation P g lat lon) as [r' g'] eqn:E2. simpl.
  specialize (H (sgrid s)). rewrite E1 in H. simpl in H. rewrite E2 in H. exact H.
Qed.

(* ===================================================================== *)
(** ** The no-data sentinel *)

(** C2 (as amended): for a coordinate that passes the bounds check, whose
    key is not in the cache and whose cell holds -9999, [GetElevation]
    returns -9999 itself, with no error, and leaves the grid store as it
    was, the cache included; the same call made again therefore misses the
    cache again and returns -9999 again. *)
Theorem GetElevation_noData_not_cached
    (P : Platform) (eg : ElevationGrid) (lat lon : float) :
  Grid.outOfBounds eg lat lon = false ->
  hotspotCache eg !! Grid.cacheKey lat lon = None ->
  index (grid eg) (Grid.cellIndex P eg lat lon) = Ok (-9999) ->
  Grid.GetElevation P eg lat lon = (Ok (-9999)%float, eg)
  /\ hotspotCache (snd (Grid.GetElevation P eg lat lon)) !! Grid.cacheKey lat lon = None
  /\ Grid.GetElevation P (snd (Grid.GetElevation P eg lat lon)) lat lon
     = (Ok (-9999)%float, eg).
Proof.
  intros Hb Hc Hi.
  rewrite (GetElevation_miss_noData P eg lat lon Hb Hc Hi). simpl.
  rewrite (GetElevation_miss_noData P eg lat lon Hb Hc Hi).
  repeat split. exact Hc.
Qed.

(** On [smallGrid], whose cache is empty, (0, 1.5) falls in the no-data
    cell. *)
Lemma GetElevation_noData_not_cached_witness :
  Grid.GetElevation indefinite smallGrid 0 1.5 = (Ok (-9999)%float, smallGrid)
  /\ Grid.GetElevation indefinite
       (snd (Grid.GetElevation indefinite smallGrid 0 1.5)) 0 1.5
     = (Ok (-9999)%float, smallGrid).
Proof.
  destruct (GetElevation_noData_not_cached indefinite smallGrid 0 1.5)
    as (H1 & _ & H3); [reflexivity | reflexivity | reflexivity |].
  split; assumption.
Defined.

(** C2 (as stated) fails when the key of the coordinate is already in the
    cache: (0, 1.00004) is inside the box of [warmGrid] and its cell, cell
    1, holds -9999, but its key is that of (0, 0.99996), stored by the
    earlier lookup, and the answer is the cached 1.0. *)
Lemma GetElevation_noData_cell_answered_from_cache :
  inBoundingBox warmGrid 0 1.00004 = true
  /\ index (grid warmGrid) (Grid.cellIndex indefinite warmGrid 0 1.00004) = Ok (-9999)
  /\ Grid.cacheKey 0 1.00004 = Grid.cacheKey 0 0.99996
  /\ fst (Grid.GetElevation indefinite warmGrid 0 1.00004) = Ok 1%float.
Proof. repeat split; vm_compute; reflexivity. Qed.

(* ===================================================================== *)
(** ** The result cache *)

Section Rounding.



End Rounding.



(* ===================================================================== *)
(** ** Batches *)

Section Batch.

Variable P : Platform.

Lemma wellFormed_set_cache (eg : ElevationGrid) (c : gmap string float) :
  wellFormed eg -> wellFormed (set_cache eg c).
Proof. intros H. exact H. Qed.

Lemma GetElevation_wellFormed (eg : ElevationGrid) (lat lon : float) :
  wellFormed eg -> wellFormed (snd (Grid.GetElevation P eg lat lon)).
Proof.
  intros H. destruct (GetElevation_frame P eg lat lon) as (c & ->).
  now apply wellFormed_set_cache.
Qed.

Lemma GetElevation_outOfBounds (eg : ElevationGrid) (lat lon a b : float) :
  Grid.outOfBounds (snd (Grid.GetElevation P eg lat lon)) a b
  = Grid.outOfBounds eg a b.
Proof. destruct (GetElevation_frame P eg lat lon) as (c & ->). reflexivity. Qed.

Lemma GetElevation_not_panic (eg : ElevationGrid) (lat lon : float) :
  wellFormed eg ->
  Grid.GetElevation P eg lat lon
  = (Ok (absorb (fst (Grid.GetElevation P eg lat lon))),
     snd (Grid.GetElevation P eg lat lon))
  \/ exists e, Grid.GetElevation P eg lat lon
               = (Err e, snd (Grid.GetElevation P eg lat lon)).
Proof.
  intros Hwf.
  pose proof (GetElevation_no_panic P eg lat lon Hwf) as Hp.
  destruct (Grid.GetElevation P eg lat lon) as [[v | e | ] g]; simpl in *.
  - now left.
  - right. now exists e.
  - congruence.
Qed.

(** The loop of the grid store computes [sampleEach]. *)
Lemma Grid_GetBatchElevations_sampleEach (points : list Point) :
  forall eg, wellFormed eg ->
    fst (Grid.GetBatchElevations P eg points) = Ok (sampleEach P eg points).
Proof.
  induction points as [| p rest IH]; intros eg Hwf; [reflexivity |].
  simpl.
  pose proof (GetElevation_wellFormed eg (Lat p) (Lon p) Hwf) as Hwf1.
  specialize (IH _ Hwf1).
  destruct (GetElevation_not_panic eg (Lat p) (Lon p) Hwf) as [E | (e & E)];
    rewrite E; simpl;
    destruct (Grid.GetBatchElevations P (snd (Grid.GetElevation P eg (Lat p) (Lon p))) rest)
      as [rs eg2]; simpl in *; rewrite IH; simpl.
  - reflexivity.
  - rewrite E. reflexivity.
Qed.

Lemma sampleEach_length (points : list Point) :
  forall eg, length (sampleEach P eg points) = length points.
Proof. induction points as [| p rest IH]; intros eg; simpl; [| rewrite IH]; reflexivity. Qed.

(** A point outside the box gets -9999, wherever it stands in the batch. *)
Lemma sampleEach_outOfBounds (points : list Point) :
  forall eg0 eg,
    (forall a b, Grid.outOfBounds eg a b = Grid.outOfBounds eg0 a b) ->
    Forall2 (fun p v => Grid.outOfBounds eg0 (Lat p) (Lon p) = true -> v = (-9999)%float)
      points (sampleEach P eg points).
Proof.
  induction points as [| p rest IH]; intros eg0 eg Hgeo; simpl; constructor.
  - intros Hb. rewrite <- Hgeo in Hb.
    now rewrite (GetElevation_rejected P eg _ _ Hb).
  - apply IH. intros a b. now rewrite GetElevation_outOfBounds.
Qed.

Lemma index_lookup {A : Type} (s : list A) (n : nat) (a : A) :
  s !! n = Some a -> index s (Z.of_nat n) = Ok a.
Proof.
  intros H. unfold index. pose proof (lookup_lt_Some _ _ _ H) as Hlt.
  destruct (Z.of_nat n <? 0) eqn:E1; [lia |].
  destruct (Z.of_nat (length s) <=? Z.of_nat n) eqn:E2; [lia |]. simpl.
  now rewrite Nat2Z.id, H.
Qed.

(** The last loop pairs the points with the elevations, in order. *)
Lemma assemble_zip (points : list BatchPoint) :
  forall (pre els : list float),
    length els = length points ->
    Service.assemble points (pre ++ els) (Z.of_nat (length pre))
    = Ok (zip_with (fun p e => mkElevationResult (bpLat p) (bpLon p) e) points els).
Proof.
  induction points as [| p rest IH]; intros pre els Hlen; [reflexivity |].
  destruct els as [| e els]; [discriminate |]. simpl in Hlen.
  simpl Service.assemble.
  rewrite (index_lookup (pre ++ e :: els) (length pre) e)
    by (rewrite lookup_app_r, Nat.sub_diag by lia; reflexivity).
  simpl.
  replace (Z.of_nat (length pre) + 1) with (Z.of_nat (length (pre ++ [e])))
    by (rewrite length_app; simpl; lia).
  replace (pre ++ e :: els) with ((pre ++ [e]) ++ els) by now rewrite <- app_assoc.
  rewrite IH by lia. reflexivity.
Qed.

Lemma zip_with_shape (points : list BatchPoint) :
  forall els : list float,
    length els = length points ->
    let results := zip_with (fun p e => mkElevationResult (bpLat p) (bpLon p) e) points els in
    length results = length points
    /\ map (fun r => (erLat r, erLon r)) results = map (fun p => (bpLat p, bpLon p)) points
    /\ map erElevation results = els.
Proof.
  induction points as [| p rest IH]; intros [| e els] Hlen; try discriminate; simpl.
  - repeat split.
  - destruct (IH els ltac:(simpl in Hlen; lia)) as (H1 & H2 & H3).
    simpl in *. now rewrite H1, H2, H3.
Qed.

End Batch.

(** C4 (as amended): on a well-formed grid store (positive [width] and
    [height], [width * height] cells), [Service.GetBatchElevations] returns
    without error a list with one result per input point, in input order,
    each carrying the latitude and longitude of its point; the elevations
    are those of the lookups made one after the other with every error
    replaced by -9999, so that a point outside the box gets -9999 and the
    call as a whole still succeeds. *)
Theorem Service_GetBatchElevations_one_result_per_point
    (P : Platform) (s : Service) (points : list BatchPoint) :
  wellFormed (sgrid s) ->
  exists results,
    fst (Service.GetBatchElevations P s points) = Ok results
    /\ length results = length points
    /\ map (fun r => (erLat r, erLon r)) results
       = map (fun p => (bpLat p, bpLon p)) points
    /\ map erElevation results = sampleEach P (sgrid s) (map toPoint points)
    /\ Forall2 (fun p r =>
                 Grid.outOfBounds (sgrid s) (bpLat p) (bpLon p) = true ->
                 erElevation r = (-9999)%float)
         points results.
Proof.
  intros Hwf. unfold Service.GetBatchElevations.
  change (sgrid (Service.count s _)) with (sgrid s).
  change (map (fun p => {| Lat := bpLat p; Lon := bpLon p |}) points)
    with (map toPoint points).
  pose proof (Grid_GetBatchElevations_sampleEach P (map toPoint points) (sgrid s) Hwf)
    as Hg.
  destruct (Grid.GetBatchElevations P (sgrid s) (map toPoint points)) as [r g].
  simpl in Hg. subst r. simpl.
  assert (Hlen : length (sampleEach P (sgrid s) (map toPoint points)) = length points)
    by now rewrite sampleEach_length, length_map.
  pose proof (assemble_zip points [] _ Hlen) as Ha.
  change (Service.assemble points (sampleEach P (sgrid s) (map toPoint points)) 0 = Ok
            (zip_with (fun p e => mkElevationResult (bpLat p) (bpLon p) e) points
               (sampleEach P (sgrid s) (map toPoint points)))) in Ha.
  rewrite Ha.
  destruct (zip_with_shape points _ Hlen) as (H1 & H2 & H3).
  eexists. split; [reflexivity |]. split; [exact H1 |]. split; [exact H2 |].
  split; [exact H3 |].
  pose proof (sampleEach_outOfBounds P (map toPoint points) (sgrid s) (sgrid s)
                (fun _ _ => eq_refl)) as HF.
  rewrite <- H3 in HF.
  apply (proj1 (Forall2_fmap _ _ _ _ _)) in HF. exact HF.
Qed.

(** [smallBatch] on [smallService]. *)
Lemma Service_GetBatchElevations_witness :
  exists results,
    fst (Service.GetBatchElevations indefinite smallService smallBatch) = Ok results
    /\ length results = 4%nat
    /\ map (fun r => (erLat r, erLon r)) results
       = [(0, 0); (5, 5); (1, 1); (0, 1.5)]%float
    /\ map erElevation results = [1; -9999; 327.67; -9999]%float.
Proof.
  destruct (Service_GetBatchElevations_one_result_per_point
              indefinite smallService smallBatch smallGrid_wellFormed)
    as (results & H1 & H2 & H3 & H4 & _).
  exists results. repeat split; assumption.
Defined.

(* ===================================================================== *)
(** ** The request counter *)

Section Counter.

Variable P : Platform.

Lemma wrapu64_small (z : Z) : 0 <= z < 2 ^ 64 -> GoInt.wrapu64 z = z.
Proof. intros Hz. unfold GoInt.wrapu64. now apply Z.mod_small. Qed.

Lemma requests_GetElevation (s : Service) (lat lon : float) :
  requests (snd (Service.GetElevation P s lat lon)) = GoInt.wrapu64 (requests s + 1).
Proof.
  unfold Service.GetElevation.
  destruct (Grid.GetElevation P (sgrid (Service.count s 1)) lat lon). reflexivity.
Qed.

Lemma requests_GetBatchElevations (s : Service) (points : list BatchPoint) :
  requests (snd (Service.GetBatchElevations P s points))
  = GoInt.wrapu64 (requests s + Z.of_nat (length points)).
Proof.
  unfold Service.GetBatchElevations.
  destruct (Grid.GetBatchElevations P _ _). reflexivity.
Qed.

Lemma counted_nonneg (c : call) : 0 <= counted c.
Proof. destruct c; simpl; lia. Qed.

Lemma totalCounted_nonneg (calls : list call) : 0 <= totalCounted calls.
Proof.
  induction calls as [| c calls IH]; simpl; [lia |].
  pose proof (counted_nonneg c). lia.
Qed.

(** The counter after one call, wrap-around included. *)
Lemma requests_perform (s : Service) (c : call) :
  requests (perform P s c) =
  match c with
  | CallGetHealth _ => requests s
  | _ => GoInt.wrapu64 (requests s + counted c)
  end.
Proof.
  destruct c; simpl.
  - apply requests_GetElevation.
  - apply requests_GetBatchElevations.
  - reflexivity.
Qed.

Lemma requests_performAll (calls : list call) :
  forall s,
    0 <= requests s ->
    requests s + totalCounted calls < 2 ^ 64 ->
    requests (performAll P s calls) = requests s + totalCounted calls.
Proof.
  unfold performAll.
  induction calls as [| c calls IH]; intros s H0 Hlt; simpl in *; [lia |].
  pose proof (counted_nonneg c) as Hc.
  pose proof (totalCounted_nonneg calls) as Ht.
  assert (E : requests (perform P s c) = requests s + counted c).
  { rewrite requests_perform. destruct c; simpl in *; try lia;
      apply wrapu64_small; lia. }
  rewrite IH; lia.
Qed.

Lemma totalCounted_app (xs ys : list call) :
  totalCounted (xs ++ ys) = totalCounted xs + totalCounted ys.
Proof. induction xs as [| c xs IH]; simpl; lia. Qed.

Lemma totalCounted_GetElevation (coords : list (float * float)) :
  totalCounted (map (fun c => CallGetElevation (fst c) (snd c)) coords)
  = Z.of_nat (length coords).
Proof. induction coords as [| c coords IH]; simpl length; simpl totalCounted; lia. Qed.

End Counter.

(** C7: [Service.GetElevation] adds 1 to the request counter and
    [Service.GetBatchElevations] adds the number of points, in [uint64]
    arithmetic, and each then answers what the grid store answers;
    [GetHealth] reports the counter and leaves it alone.  Hence, short of
    the wrap-around of [uint64]: after any calls the counter is the prior
    value plus what the calls count for; after N further calls of
    [GetElevation] the [total_requests] of [GetHealth] is the prior one
    plus N; and no call lowers the counter. *)
Theorem Service_request_counter (P : Platform) (s : Service) :
  (forall lat lon,
      requests (snd (Service.GetElevation P s lat lon)) = GoInt.wrapu64 (requests s + 1)
      /\ fst (Service.GetElevation P s lat lon)
         = fst (Grid.GetElevation P (sgrid s) lat lon)
      /\ sgrid (snd (Service.GetElevation P s lat lon))
         = snd (Grid.GetElevation P (sgrid s) lat lon))
  /\ (forall points,
      requests (snd (Service.GetBatchElevations P s points))
      = GoInt.wrapu64 (requests s + Z.of_nat (length points)))
  /\ (forall rt, TotalRequests (Service.GetHealth rt s) = requests s)
  /\ (forall calls,
      0 <= requests s ->
      requests s + totalCounted calls < 2 ^ 64 ->
      requests (performAll P s calls) = requests s + totalCounted calls)
  /\ (forall coords rt rt',
      0 <= requests s ->
      requests s + Z.of_nat (length coords) < 2 ^ 64 ->
      TotalRequests
        (Service.GetHealth rt'
           (performAll P s (map (fun c => CallGetElevation (fst c) (snd c)) coords)))
      = TotalRequests (Service.GetHealth rt s) + Z.of_nat (length coords))
  /\ (forall calls c,
      0 <= requests s ->
      requests s + totalCounted (calls ++ [c]) < 2 ^ 64 ->
      requests (performAll P s calls) <= requests (perform P (performAll P s calls) c)).
Proof.
  repeat apply conj.
  - intros lat lon. split; [apply requests_GetElevation |].
    unfold Service.GetElevation.
    change (sgrid (Service.count s 1)) with (sgrid s).
    destruct (Grid.GetElevation P (sgrid s) lat lon). split; reflexivity.
  - apply requests_GetBatchElevations.
  - reflexivity.
  - intros calls. apply requests_performAll.
  - intros coords rt rt' H0 Hlt. simpl.
    rewrite requests_performAll; rewrite ?totalCounted_GetElevation; lia.
  - intros calls c H0 Hlt.
    rewrite totalCounted_app in Hlt. simpl in Hlt.
    pose proof (counted_nonneg c) as Hc.
    pose proof (totalCounted_nonneg calls) as Ht.
    change (perform P (performAll P s calls) c)
      with (performAll P (performAll P s calls) [c]).
    rewrite (requests_performAll P [c]); simpl;
      rewrite ?(requests_performAll P calls); lia.
Qed.

(** From [smallService], whose counter is 0: a lookup, a batch of four, a
    health report and another lookup leave the counter at 6, and two
    lookups raise the reported total by 2. *)
Lemma Service_request_counter_witness :
  requests (performAll indefinite smallService smallCalls) = 6
  /\ TotalRequests
       (Service.GetHealth someRuntime
          (performAll indefinite smallService
             [CallGetElevation 0 0; CallGetElevation 1 1]))
     = TotalRequests (Service.GetHealth someRuntime smallService) + 2.
Proof.
  destruct (Service_request_counter indefinite smallService)
    as (_ & _ & _ & H4 & H5 & _).
  split.
  - apply (H4 smallCalls); simpl; lia.
  - apply (H5 [(0, 0); (1, 1)]%float someRuntime someRuntime); simpl; lia.
Defined.

(* ===================================================================== *)
(** ** Loading *)

Section Loading.

Variable P : Platform.
Variable fs : FileSystem.

Lemma wrap_range (w z : Z) :
  0 < w -> - 2 ^ (w - 1) <= GoInt.wrap w z < 2 ^ (w - 1).
Proof.
  intros Hw. unfold GoInt.wrap.
  assert (E : 2 ^ w = 2 * 2 ^ (w - 1)).
  { replace w with (Z.succ (w - 1)) at 1 by lia. rewrite Z.pow_succ_r; lia. }
  assert (Hp : 0 < 2 ^ (w - 1)) by (apply Z.pow_pos_nonneg; lia).
  pose proof (Z.mod_pos_bound (z + 2 ^ (w - 1)) (2 ^ w) ltac:(lia)). lia.
Qed.

Lemma wrap32_in_int32 (z : Z) : GoInt.in_int32 (GoInt.wrap32 z).
Proof. apply (wrap_range 32 z). lia. Qed.

Lemma int32_product (w h : Z) :
  GoInt.in_int32 w -> GoInt.in_int32 h -> - 2 ^ 62 < w * h <= 2 ^ 62.
Proof.
  unfold GoInt.in_int32.
  change (2 ^ 31) with 2147483648. change (2 ^ 62) with (2147483648 * 2147483648).
  intros Hw Hh. nia.
Qed.

Lemma mul_int32 (w h : Z) :
  GoInt.in_int32 w -> GoInt.in_int32 h -> GoInt.mul w h = w * h.
Proof.
  intros Hw Hh. pose proof (int32_product w h Hw Hh) as Hp.
  apply wrap64_small. change (2 ^ 63) with (2 * 2 ^ 62). lia.
Qed.

(** The expected size is [width * height * 2], except that the product
    [2^63] of the two smallest [int32] wraps to a negative number. *)
Lemma expectedSize_int32 (eg : ElevationGrid) :
  GoInt.in_int32 (width eg) -> GoInt.in_int32 (height eg) ->
  Grid.expectedSize eg = width eg * height eg * 2
  \/ (width eg * height eg * 2 = 2 ^ 63 /\ Grid.expectedSize eg = - 2 ^ 63).
Proof.
  intros Hw Hh. unfold Grid.expectedSize.
  rewrite (mul_int32 (width eg) (height eg)) by assumption.
  unfold GoInt.mul.
  pose proof (int32_product _ _ Hw Hh) as Hp.
  destruct (Z.eq_dec (width eg * height eg) (2 ^ 62)) as [E | E].
  - right. rewrite E. split; reflexivity.
  - left. apply wrap64_small. change (2 ^ 63) with (2 * 2 ^ 62). lia.
Qed.

Lemma make_int16_ok (n : Z) :
  0 <= n -> make_int16 n = Ok (repeat 0 (Z.to_nat n)).
Proof. intros Hn. unfold make_int16. destruct (n <? 0) eqn:E; [lia | reflexivity]. Qed.

Lemma generateTestData_ok (eg : ElevationGrid) :
  GoInt.in_int32 (width eg) -> GoInt.in_int32 (height eg) ->
  0 <= width eg * height eg ->
  Grid.generateTestData P eg = Ok (set_grid eg (syntheticGrid P eg)).
Proof.
  intros Hw Hh Hn. unfold Grid.generateTestData.
  rewrite mul_int32, make_int16_ok by assumption. simpl.
  now rewrite repeat_length.
Qed.

(** A reader that ends early, without a read error, makes [binary.Read]
    fail with one of the two end-of-input errors. *)
Lemma ReadFull_truncated (f : File) (n : nat) :
  (length (fileData f) < n)%nat -> fileBroken f = false ->
  Binary.ReadFull f n = Err ErrEOF \/ Binary.ReadFull f n = Err ErrUnexpectedEOF.
Proof.
  intros Hlen Hb. unfold Binary.ReadFull.
  destruct (n <=? length (fileData f))%nat eqn:E; [apply Nat.leb_le in E; lia |].
  rewrite Hb. destruct (fileData f); [left | right]; reflexivity.
Qed.

Lemma loadData_NotExist (path : string) (eg : ElevationGrid) :
  fs path = NotExist ->
  Grid.loadData P fs path eg = Grid.generateTestData P eg.
Proof. intros H. unfold Grid.loadData. now rewrite H. Qed.

Lemma loadData_size_mismatch (path : string) (eg : ElevationGrid) (f : File) (size : Z) :
  GoInt.in_int32 (width eg) -> GoInt.in_int32 (height eg) ->
  fs path = Opened f -> fileSize f = Some size -> 0 <= size ->
  size <> width eg * height eg * 2 ->
  Grid.loadData P fs path eg = Err (ErrSizeMismatch (Grid.expectedSize eg) size).
Proof.
  intros Hw Hh Hf Hs H0 Hne. unfold Grid.loadData. rewrite Hf, Hs.
  assert (E : (size =? Grid.expectedSize eg) = false).
  { apply Z.eqb_neq.
    destruct (expectedSize_int32 eg Hw Hh) as [-> | (_ & ->)]; lia. }
  now rewrite E.
Qed.

Lemma loadData_truncated (path : string) (eg : ElevationGrid) (f : File) (size : Z) :
  GoInt.in_int32 (width eg) -> GoInt.in_int32 (height eg) ->
  fs path = Opened f -> fileSize f = Some size -> 0 <= size ->
  size = Grid.expectedSize eg ->
  (length (fileData f) < 2 * Z.to_nat (width eg * height eg))%nat ->
  fileBroken f = false ->
  Grid.loadData P fs path eg = Ok (set_grid eg (syntheticGrid P eg)).
Proof.
  intros Hw Hh Hf Hs H0 He Hlen Hb. unfold Grid.loadData. rewrite Hf, Hs.
  rewrite He, Z.eqb_refl. simpl.
  assert (Hn : 0 <= width eg * height eg).
  { destruct (expectedSize_int32 eg Hw Hh) as [E | (_ & E)]; lia. }
  rewrite mul_int32, make_int16_ok by assumption. simpl.
  rewrite repeat_length. unfold Binary.ReadInt16s.
  destruct (ReadFull_truncated f _ Hlen Hb) as [-> | ->]; simpl;
    now rewrite (generateTestData_ok (set_grid eg _)).
Qed.

Lemma LoadFromFile_after_header (dataPath headerPath : string) (eg0 eg : ElevationGrid) :
  Grid.loadHeader fs headerPath eg0 = Ok eg ->
  Grid.LoadFromFile P fs dataPath headerPath eg0
  = bind (wrapErr "failed to load data" (Grid.loadData P fs dataPath eg))
         (fun eg2 => Ok (withInvGridSize eg2)).
Proof. intros H. unfold Grid.LoadFromFile. now rewrite H. Qed.

(** The dimensions [loadHeader] leaves are those of an [int32]. *)
Lemma loadHeader_int32 (path : string) (eg0 eg : ElevationGrid) :
  Grid.loadHeader fs path eg0 = Ok eg ->
  GoInt.in_int32 (width eg) /\ GoInt.in_int32 (height eg).
Proof.
  unfold Grid.loadHeader. destruct (fs path) as [| | f].
  - intros [= <-]. simpl. unfold GoInt.in_int32. lia.
  - discriminate.
  - unfold Binary.ReadHeader. destruct (Binary.ReadFull f 48); simpl; try discriminate.
    intros [= <-]. simpl. split; apply wrap32_in_int32.
Qed.

End Loading.

(** C3: once the header stage of [LoadFromFile] has set the geometry,
    (1) a data file whose reported size differs from [width * height * 2]
    makes the load fail with the size-mismatch error, wrapped, and no
    synthetic data is generated; (2) a data file whose reported size passes
    the check but whose reader ends before [width * height * 2] bytes,
    without a read error, makes the load succeed with the synthetic grid;
    (3) an absent data file hands over to the synthetic generator, and the
    load succeeds with the synthetic grid when [width * height] is not
    negative. *)
Theorem LoadFromFile_data_file
    (P : Platform) (fs : FileSystem) (dataPath headerPath : string)
    (eg0 eg : ElevationGrid) :
  Grid.loadHeader fs headerPath eg0 = Ok eg ->
  (forall f size,
      fs dataPath = Opened f -> fileSize f = Some size -> 0 <= size ->
      size <> width eg * height eg * 2 ->
      Grid.loadData P fs dataPath eg = Err (ErrSizeMismatch (Grid.expectedSize eg) size)
      /\ Grid.LoadFromFile P fs dataPath headerPath eg0
         = Err (ErrWrap "failed to load data"
                  (ErrSizeMismatch (Grid.expectedSize eg) size)))
  /\ (forall f size,
      fs dataPath = Opened f -> fileSize f = Some size -> 0 <= size ->
      size = Grid.expectedSize eg ->
      (length (fileData f) < 2 * Z.to_nat (width eg * height eg))%nat ->
      fileBroken f = false ->
      size = width eg * height eg * 2
      /\ Grid.loadData P fs dataPath eg = Ok (set_grid eg (syntheticGrid P eg))
      /\ Grid.LoadFromFile P fs dataPath headerPath eg0
         = Ok (withInvGridSize (set_grid eg (syntheticGrid P eg))))
  /\ (fs dataPath = NotExist ->
      Grid.loadData P fs dataPath eg = Grid.generateTestData P eg
      /\ (0 <= width eg * height eg ->
          Grid.LoadFromFile P fs dataPath headerPath eg0
          = Ok (withInvGridSize (set_grid eg (syntheticGrid P eg))))).
Proof.
  intros Hh. destruct (loadHeader_int32 fs headerPath eg0 eg Hh) as (Hw32 & Hh32).
  rewrite (LoadFromFile_after_header P fs dataPath headerPath eg0 eg Hh).
  repeat apply conj.
  - intros f size Hf Hs H0 Hne.
    rewrite (loadData_size_mismatch P fs dataPath eg f size) by assumption.
    split; reflexivity.
  - intros f size Hf Hs H0 He Hlen Hb.
    rewrite (loadData_truncated P fs dataPath eg f size) by assumption.
    repeat split.
    destruct (expectedSize_int32 eg Hw32 Hh32) as [E | (_ & E)]; lia.
  - intros Hf. rewrite (loadData_NotExist P fs dataPath eg Hf).
    split; [reflexivity |]. intros Hn.
    now rewrite generateTestData_ok.
Qed.

Lemma loadHeader_tiny (data : openResult) :
  Grid.loadHeader (mkFS (regular tinyHeader) data) headerPath0 NewElevationGrid
  = Ok tinyGeometry.
Proof. reflexivity. Qed.

(** With the header of [smallGrid]: a data file of 7 bytes where 8 are
    expected is refused; a data file reported as 8 bytes whose reader ends
    after 6, and an absent data file, both give the synthetic grid. *)
Lemma LoadFromFile_data_file_witness :
  Grid.LoadFromFile indefinite fsShortData dataPath0 headerPath0 NewElevationGrid
  = Err (ErrWrap "failed to load data" (ErrSizeMismatch 8 7))
  /\ Grid.LoadFromFile indefinite fsTruncatedRead dataPath0 headerPath0 NewElevationGrid
     = Ok (withInvGridSize (set_grid tinyGeometry [500; 500; 500; 500]))
  /\ Grid.LoadFromFile indefinite fsNoData dataPath0 headerPath0 NewElevationGrid
     = Ok (withInvGridSize (set_grid tinyGeometry [500; 500; 500; 500])).
Proof.
  split; [| split].
  - destruct (LoadFromFile_data_file indefinite fsShortData dataPath0 headerPath0
                NewElevationGrid tinyGeometry (loadHeader_tiny _)) as (H1 & _).
    apply (H1 _ 7 eq_refl eq_refl); vm_compute; congruence.
  - destruct (LoadFromFile_data_file indefinite fsTruncatedRead dataPath0 headerPath0
                NewElevationGrid tinyGeometry (loadHeader_tiny _)) as (_ & H2 & _).
    apply (H2 _ 8 eq_refl eq_refl); vm_compute; try reflexivity; try congruence; lia.
  - destruct (LoadFromFile_data_file indefinite fsNoData dataPath0 headerPath0
                NewElevationGrid tinyGeometry (loadHeader_tiny _)) as (_ & _ & H3).
    apply (H3 eq_refl). vm_compute. congruence.
Defined.

(* ===================================================================== *)
(** ** The header *)

Section Header.

Variable P : Platform.
Variable fs : FileSystem.

Lemma loadHeader_NotExist (path : string) (eg0 : ElevationGrid) :
  fs path = NotExist ->
  Grid.loadHeader fs path eg0 = Ok (set_geometry eg0 defaultHeader).
Proof. intros H. unfold Grid.loadHeader. now rewrite H. Qed.

Lemma loadHeader_Opened (path : string) (eg0 : ElevationGrid) (f : File) :
  fs path = Opened f ->
  Grid.loadHeader fs path eg0
  = bind (Binary.ReadHeader f) (fun h => Ok (set_geometry eg0 h)).
Proof. intros H. unfold Grid.loadHeader. now rewrite H. Qed.

(** The header parses exactly when the reader yields 48 bytes. *)
Lemma ReadHeader_short (f : File) :
  (length (fileData f) < 48)%nat -> exists e, Binary.ReadHeader f = Err e.
Proof.
  intros H. unfold Binary.ReadHeader, Binary.ReadFull.
  destruct (48 <=? length (fileData f))%nat eqn:E; [apply Nat.leb_le in E; lia |].
  destruct (fileBroken f); [eexists; reflexivity |].
  destruct (fileData f); eexists; reflexivity.
Qed.

Lemma ReadHeader_full (f : File) :
  (48 <= length (fileData f))%nat ->
  Binary.ReadHeader f = Ok (Binary.decodeHeader (firstn 48 (fileData f))).
Proof.
  intros H. unfold Binary.ReadHeader, Binary.ReadFull.
  apply Nat.leb_le in H. now rewrite H.
Qed.

(** Neither stage of [LoadFromFile] after the header touches the geometry. *)
Lemma loadData_geometry (path : string) (eg eg' : ElevationGrid) :
  Grid.loadData P fs path eg = Ok eg' -> geometry eg' = geometry eg.
Proof.
  assert (Hg : forall e e', Grid.generateTestData P e = Ok e' -> geometry e' = geometry e).
  { intros e e'. unfold Grid.generateTestData.
    destruct (make_int16 _); simpl; try discriminate. now intros [= <-]. }
  unfold Grid.loadData. destruct (fs path) as [| | f]; [apply Hg | discriminate |].
  destruct (fileSize f) as [size |]; [| discriminate].
  destruct (negb _); [discriminate |].
  destruct (make_int16 _) as [g | |]; simpl; try discriminate.
  destruct (Binary.ReadInt16s f (length g)) as [cells | e |]; try discriminate.
  - now intros [= <-].
  - destruct e; try discriminate; intros H; apply Hg in H; exact H.
Qed.

Lemma LoadFromFile_geometry (dataPath headerPath : string) (eg0 eg' : ElevationGrid) :
  Grid.LoadFromFile P fs dataPath headerPath eg0 = Ok eg' ->
  exists eg, Grid.loadHeader fs headerPath eg0 = Ok eg /\ geometry eg' = geometry eg.
Proof.
  unfold Grid.LoadFromFile.
  destruct (Grid.loadHeader fs headerPath eg0) as [eg | |]; simpl; try discriminate.
  destruct (Grid.loadData P fs dataPath eg) as [eg2 | |] eqn:E; simpl; try discriminate.
  intros [= <-]. exists eg. split; [reflexivity |].
  apply loadData_geometry in E. exact E.
Qed.

End Header.

(** C9: when the header file does not exist, [loadHeader] succeeds and sets
    the geometry to width 32000, height 26000, latitudes 20.0 to 46.0,
    longitudes 122.0 to 154.0 and cell size 0.001, and [LoadFromFile] goes
    on to the data file with it (and succeeds with the synthetic grid when
    there is no data file either); when the header file exists and
    [binary.Read] fails on it, as it does on every file of fewer than 48
    bytes, [LoadFromFile] and [NewService] fail with that error, wrapped. *)
Theorem loadHeader_default_or_error
    (P : Platform) (fs : FileSystem) (dataPath headerPath : string)
    (eg0 : ElevationGrid) (now : Z) :
  (fs headerPath = NotExist ->
     Grid.loadHeader fs headerPath eg0 = Ok (set_geometry eg0 defaultHeader)
     /\ geometry (set_geometry eg0 defaultHeader)
        = mkGridHeader 32000 26000 20.0 46.0 122.0 154.0 0.001
     /\ Grid.LoadFromFile P fs dataPath headerPath eg0
        = bind (wrapErr "failed to load data"
                  (Grid.loadData P fs dataPath (set_geometry eg0 defaultHeader)))
               (fun eg2 => Ok (withInvGridSize eg2))
     /\ (fs dataPath = NotExist ->
         Grid.LoadFromFile P fs dataPath headerPath eg0
         = Ok (withInvGridSize
                 (set_grid (set_geometry eg0 defaultHeader)
                    (syntheticGrid P (set_geometry eg0 defaultHeader))))))
  /\ (forall f e,
       fs headerPath = Opened f -> Binary.ReadHeader f = Err e ->
       Grid.LoadFromFile P fs dataPath headerPath eg0
       = Err (ErrWrap "failed to load header" e)
       /\ NewService P fs now dataPath headerPath
          = Err (ErrWrap "failed to load elevation data"
                   (ErrWrap "failed to load header" e)))
  /\ (forall f,
       fs headerPath = Opened f -> (length (fileData f) < 48)%nat ->
       is_err (Grid.LoadFromFile P fs dataPath headerPath eg0) = true
       /\ is_err (NewService P fs now dataPath headerPath) = true).
Proof.
  assert (Hparse : forall eg f e,
    fs headerPath = Opened f -> Binary.ReadHeader f = Err e ->
    Grid.LoadFromFile P fs dataPath headerPath eg = Err (ErrWrap "failed to load header" e)).
  { intros eg f e Hf He. unfold Grid.LoadFromFile.
    rewrite (loadHeader_Opened fs headerPath eg f Hf), He. reflexivity. }
  repeat apply conj.
  - intros Hf. pose proof (loadHeader_NotExist fs headerPath eg0 Hf) as Hh.
    pose proof (LoadFromFile_after_header P fs dataPath headerPath eg0 _ Hh) as Hl.
    split; [exact Hh |]. split; [reflexivity |]. split; [exact Hl |].
    intros Hd. rewrite Hl, (loadData_NotExist P fs dataPath _ Hd).
    rewrite generateTestData_ok; [reflexivity | | |];
      unfold GoInt.in_int32; cbn [width height set_geometry defaultHeader Width Height];
      lia.
  - intros f e Hf He. split; [now apply (Hparse eg0 f e) |].
    unfold NewService. now rewrite (Hparse NewElevationGrid f e).
  - intros f Hf Hlen. destruct (ReadHeader_short f Hlen) as (e & He).
    unfold NewService.
    rewrite (Hparse eg0 f e Hf He), (Hparse NewElevationGrid f e Hf He).
    split; reflexivity.
Qed.

(** Without a header file the geometry is the default one; a header file
    of 20 bytes stops the construction. *)
Lemma loadHeader_default_or_error_witness :
  Grid.loadHeader fsNoHeader headerPath0 NewElevationGrid
  = Ok (set_geometry NewElevationGrid defaultHeader)
  /\ NewService indefinite fsShortHeader 0 dataPath0 headerPath0
     = Err (ErrWrap "failed to load elevation data"
              (ErrWrap "failed to load header" ErrUnexpectedEOF)).
Proof.
  split.
  - apply (loadHeader_default_or_error indefinite fsNoHeader dataPath0 headerPath0
             NewElevationGrid 0). reflexivity.
  - destruct (loadHeader_default_or_error indefinite fsShortHeader dataPath0 headerPath0
                NewElevationGrid 0) as (_ & H2 & _).
    apply (H2 _ ErrUnexpectedEOF eq_refl). reflexivity.
Defined.

(* ===================================================================== *)
(** ** The geometry invariant *)

Lemma defaultHeader_valid : validGeometry defaultHeader = true.
Proof. reflexivity. Qed.

(** C8 (as amended): a grid store that [LoadFromFile] has built has the
    default geometry, which satisfies the invariant, when the header file
    does not exist; when the header file exists, its geometry is the
    decoded header, field for field, so that the invariant holds of the
    grid store exactly when it holds of the header. *)
Theorem LoadFromFile_geometry_invariant
    (P : Platform) (fs : FileSystem) (dataPath headerPath : string)
    (eg0 eg' : ElevationGrid) :
  Grid.LoadFromFile P fs dataPath headerPath eg0 = Ok eg' ->
  (fs headerPath = NotExist ->
     geometry eg' = defaultHeader /\ geometryInvariant eg' = true)
  /\ (forall f,
       fs headerPath = Opened f ->
       Binary.ReadHeader f = Ok (geometry eg')
       /\ geometry eg' = Binary.decodeHeader (firstn 48 (fileData f))
       /\ geometryInvariant eg'
          = validGeometry (Binary.decodeHeader (firstn 48 (fileData f)))).
Proof.
  intros Hload.
  destruct (LoadFromFile_geometry P fs dataPath headerPath eg0 eg' Hload)
    as (eg & Hh & Hg).
  unfold geometryInvariant. rewrite Hg. split.
  - intros Hf. rewrite (loadHeader_NotExist fs headerPath eg0 Hf) in Hh.
    injection Hh as <-. split; reflexivity.
  - intros f Hf. rewrite (loadHeader_Opened fs headerPath eg0 f Hf) in Hh.
    destruct (Binary.ReadHeader f) as [h | |] eqn:Eh; simpl in Hh; try discriminate.
    injection Hh as <-.
    assert (Hlen : (48 <= length (fileData f))%nat).
    { destruct (Nat.le_gt_cases 48 (length (fileData f))) as [H | H]; [exact H |].
      destruct (ReadHeader_short f H) as (e & He). congruence. }
    rewrite (ReadHeader_full f Hlen) in Eh. injection Eh as <-.
    repeat split.
Qed.

Lemma LoadFromFile_tiny :
  Grid.LoadFromFile indefinite fsTiny dataPath0 headerPath0 NewElevationGrid
  = Ok smallGrid.
Proof. reflexivity. Qed.

(** Loaded from its two files, [smallGrid] has the geometry of its header,
    which satisfies the invariant. *)
Lemma LoadFromFile_geometry_invariant_witness :
  geometry smallGrid = Binary.decodeHeader (firstn 48 tinyHeader)
  /\ geometryInvariant smallGrid = true.
Proof.
  destruct (LoadFromFile_geometry_invariant indefinite fsTiny dataPath0 headerPath0
              NewElevationGrid smallGrid LoadFromFile_tiny) as (_ & H).
  destruct (H _ eq_refl) as (_ & H2 & H3).
  split; [exact H2 |]. rewrite H3. reflexivity.
Defined.

(** C8 (as stated) fails for a header of 48 zero bytes with no data file:
    the header parses, the generator fills a grid of no cells, and the
    service is built with width 0, height 0, equal bounds and cell size
    0. *)
Lemma NewService_zero_header :
  exists svc,
    NewService indefinite fsZeroHeader 0 dataPath0 headerPath0 = Ok svc
    /\ geometryInvariant (sgrid svc) = false
    /\ geometry (sgrid svc) = mkGridHeader 0 0 0 0 0 0 0.
Proof. eexists. repeat split. Qed.

(* ===================================================================== *)
(** ** Well-formedness of a loaded grid store *)

Section LoadedGrid.

Variable P : Platform.
Variable fs : FileSystem.

Lemma decodeInt16s_length (n : nat) :
  forall bs, length bs = (2 * n)%nat -> length (Binary.decodeInt16s bs) = n.
Proof.
  induction n as [| n IH]; intros bs Hlen.
  - destruct bs; [reflexivity | discriminate].
  - destruct bs as [| lo [| hi rest]]; simpl in Hlen; try lia.
    simpl. f_equal. apply IH. lia.
Qed.

Lemma ReadInt16s_length (f : File) (n : nat) (cells : list Z) :
  Binary.ReadInt16s f n = Ok cells -> length cells = n.
Proof.
  unfold Binary.ReadInt16s, Binary.ReadFull.
  destruct (2 * n <=? length (fileData f))%nat eqn:E.
  - simpl. intros [= <-]. apply decodeInt16s_length.
    apply Nat.leb_le in E. rewrite length_take. lia.
  - destruct (fileBroken f); [discriminate |].
    destruct (fileData f); discriminate.
Qed.

Lemma syntheticGrid_length (eg : ElevationGrid) :
  length (syntheticGrid P eg) = Z.to_nat (width eg * height eg).
Proof. unfold syntheticGrid. now rewrite length_map, length_seq. Qed.

Lemma make_int16_inv (n : Z) (g : list Z) :
  make_int16 n = Ok g -> 0 <= n /\ length g = Z.to_nat n.
Proof.
  unfold make_int16. destruct (n <? 0) eqn:E; [discriminate |].
  intros [= <-]. rewrite repeat_length. lia.
Qed.

Lemma generateTestData_length (eg eg' : ElevationGrid) :
  GoInt.in_int32 (width eg) -> GoInt.in_int32 (height eg) ->
  Grid.generateTestData P eg = Ok eg' ->
  Z.of_nat (length (grid eg')) = width eg * height eg.
Proof.
  intros Hw Hh. unfold Grid.generateTestData. rewrite mul_int32 by assumption.
  destruct (make_int16 (width eg * height eg)) as [g | |] eqn:E; simpl; try discriminate.
  apply make_int16_inv in E as (Hn & Hg). intros [= <-]. simpl.
  rewrite length_map, length_seq. lia.
Qed.

Lemma loadData_length (path : string) (eg eg' : ElevationGrid) :
  GoInt.in_int32 (width eg) -> GoInt.in_int32 (height eg) ->
  Grid.loadData P fs path eg = Ok eg' ->
  Z.of_nat (length (grid eg')) = width eg * height eg.
Proof.
  intros Hw Hh. unfold Grid.loadData.
  destruct (fs path) as [| | f]; [now apply generateTestData_length | discriminate |].
  destruct (fileSize f) as [size |]; [| discriminate].
  destruct (negb _); [discriminate |].
  rewrite mul_int32 by assumption.
  destruct (make_int16 (width eg * height eg)) as [g | |] eqn:E; simpl; try discriminate.
  apply make_int16_inv in E as (Hn & Hg).
  destruct (Binary.ReadInt16s f (length g)) as [cells | e |] eqn:Er; try discriminate.
  - intros [= <-]. simpl. apply ReadInt16s_length in Er. lia.
  - destruct e; try discriminate;
      intros H; apply (generateTestData_length (set_grid eg g)) in H; assumption.
Qed.

(** A grid store that [LoadFromFile] has built holds [width * height]
    cells; with positive dimensions it is well-formed. *)
Lemma LoadFromFile_wellFormed (dataPath headerPath : string) (eg0 eg' : ElevationGrid) :
  Grid.LoadFromFile P fs dataPath headerPath eg0 = Ok eg' ->
  Z.of_nat (length (grid eg')) = width eg' * height eg'
  /\ (0 < width eg' -> 0 < height eg' -> wellFormed eg').
Proof.
  unfold Grid.LoadFromFile.
  destruct (Grid.loadHeader fs headerPath eg0) as [eg | |] eqn:Eh; simpl; try discriminate.
  destruct (Grid.loadData P fs dataPath eg) as [eg2 | |] eqn:Ed; simpl; try discriminate.
  intros [= <-]. simpl.
  destruct (loadHeader_int32 fs headerPath eg0 eg Eh) as (Hw & Hh).
  pose proof (loadData_length dataPath eg eg2 Hw Hh Ed) as Hlen.
  pose proof (loadData_geometry P fs dataPath eg eg2 Ed) as Hg.
  assert (Ew : width eg2 = width eg) by exact (f_equal Width Hg).
  assert (Ehh : height eg2 = height eg) by exact (f_equal Height Hg).
  rewrite Ew, Ehh. split; [exact Hlen |].
  intros H1 H2. unfold wellFormed. simpl. rewrite Ew, Ehh, Hlen.
  pose proof (int32_product _ _ Hw Hh) as Hp.
  change (2 ^ 63) with (2 * 2 ^ 62). lia.
Qed.

End LoadedGrid.

(** Without positive dimensions the read can leave the slice: on the
    service built from the header of 48 zero bytes, the lookup at (0, 0)
    passes the bounds check and panics on index -1, alone or in a batch. *)
Lemma zero_header_lookup_panics :
  exists svc,
    NewService indefinite fsZeroHeader 0 dataPath0 headerPath0 = Ok svc
    /\ Grid.outOfBounds (sgrid svc) 0 0 = false
    /\ Grid.cellIndex indefinite (sgrid svc) 0 0 = -1
    /\ fst (Service.GetElevation indefinite svc 0 0) = Panic
    /\ fst (Service.GetBatchElevations indefinite svc [mkBatchPoint 0 0]) = Panic.
Proof. eexists. repeat split. Qed.

(* ===================================================================== *)
(** ** A batch on a grid store without cells *)

Section ZeroDimensions.

Variable P : Platform.

(** Against a dimension of 0 the clamp ends at -1, whatever it is given. *)
Lemma clamp_zero (v : Z) : Grid.clamp v 0 = -1.
Proof.
  unfold Grid.clamp. destruct (v <? 0) eqn:E.
  - reflexivity.
  - assert (H : (0 <=? v) = true) by (apply Z.leb_le; apply Z.ltb_ge in E; lia).
    rewrite H. reflexivity.
Qed.

Lemma zero_dimensions_cellIndex (eg : ElevationGrid) (lat lon : float) :
  width eg = 0 -> height eg = 0 -> Grid.cellIndex P eg lat lon = -1.
Proof.
  intros Hw Hh. unfold Grid.cellIndex, Grid.row, Grid.column.
  rewrite Hw, Hh, !clamp_zero. reflexivity.
Qed.

Lemma zeroService_lookup_panics :
  Grid.GetElevation P (sgrid zeroService) 0 0 = (Panic, sgrid zeroService).
Proof.
  apply GetElevation_miss_panic; [reflexivity | reflexivity |].
  rewrite zero_dimensions_cellIndex by reflexivity. reflexivity.
Qed.

End ZeroDimensions.

(** C4 (as stated) fails on a service that [NewService] accepts: from a
    header of 48 zero bytes and no data file it builds [zeroService], on
    every platform; there the point (0, 0) passes the bounds check, both
    clamps end at -1, the read of cell -1 panics, and the batch of that one
    point returns no result at all. *)
Lemma Service_GetBatchElevations_panics_on_zero_header :
  (forall P, NewService P fsZeroHeader 0 dataPath0 headerPath0 = Ok zeroService)
  /\ (forall P, Grid.outOfBounds (sgrid zeroService) 0 0 = false
                /\ Grid.cellIndex P (sgrid zeroService) 0 0 = -1)
  /\ (forall P,
        fst (Service.GetBatchElevations P zeroService [mkBatchPoint 0 0]) = Panic).
Proof.
  split; [| split].
  - intros P. reflexivity.
  - intros P. split; [reflexivity |].
    now apply zero_dimensions_cellIndex.
  - intros P. unfold Service.GetBatchElevations.
    change (sgrid (Service.count zeroService _)) with (sgrid zeroService).
    cbn [map Grid.GetBatchElevations Lat Lon bpLat bpLon].
    rewrite zeroService_lookup_panics. reflexivity.
Qed.
